(** * Seat reservation handler: a model of [handler.py] and its properties

    The handler is one AWS Lambda entry point, [handle_request], that
    routes API Gateway events to [get_seats], [reserve_seat] and
    [cancel_seat]; each of them makes one call to a DynamoDB table through
    the boto3 client.

    The Python functions are embedded as functions of a small monad that
    threads the world (the table, the trace of client calls, standard
    output) and carries Python exceptions.  What lives outside the
    repository is kept outside the model as well:
    - [json.loads], [json.dumps] and [str] on values that are not strings
      are parameters of the development (the class [Runtime]);
    - the DynamoDB table is a reference model of the three client calls
      the handler uses, with an explicit input for the failures of the
      service or of the network, and a parameter for the number of items
      in one answer to a scan. *)

From Stdlib Require Import String List ZArith Bool Lia.
From Stdlib Require Import Floats.SpecFloat.
Import ListNotations.
Local Open Scope string_scope.

Set Implicit Arguments.
Set Warnings "-register-all".

(** ** Python values *)

(** What [json.loads] can return.  A [dict] is kept as the list of its
    pairs in insertion order; [str] is modelled by [string]. *)
Inductive json : Type :=
| JNull
| JBool (b : bool)
| JInt (z : Z)
| JFloat (f : spec_float)
| JStr (s : string)
| JList (l : list json)
| JDict (d : list (string * json)).

Definition dict := list (string * json).

(** [d[k]] read without raising: the first pair whose key is [k]. *)
Fixpoint dict_lookup (A : Type) (d : list (string * A)) (k : string) : option A :=
  match d with
  | [] => None
  | (k', v) :: d' => if String.eqb k' k then Some v else dict_lookup d' k
  end.

(** [d[k] = v]: the value is replaced where the key stands, a new key goes
    to the end. *)
Fixpoint dict_set (A : Type) (d : list (string * A)) (k : string) (v : A)
  : list (string * A) :=
  match d with
  | [] => [(k, v)]
  | (k', v') :: d' =>
      if String.eqb k' k then (k', v) :: d' else (k', v') :: dict_set d' k v
  end.

(** [d.get(k)]: [None] when the key is absent. *)
Definition py_get (d : dict) (k : string) : json :=
  match dict_lookup d k with
  | Some v => v
  | None => JNull
  end.

(** Truth value of an object, as [not x] tests it. *)
Definition truthy (v : json) : bool :=
  match v with
  | JNull => false
  | JBool b => b
  | JInt z => negb (Z.eqb z 0)
  | JFloat (S754_zero _) => false
  | JFloat _ => true
  | JStr s => negb (String.eqb s EmptyString)
  | JList l => match l with [] => false | _ => true end
  | JDict d => match d with [] => false | _ => true end
  end.

(** [v == s] for a string literal [s]. *)
Definition py_eq_str (v : json) (s : string) : bool :=
  match v with
  | JStr s' => String.eqb s' s
  | _ => false
  end.

Definition type_name (v : json) : string :=
  match v with
  | JNull => "NoneType"
  | JBool _ => "bool"
  | JInt _ => "int"
  | JFloat _ => "float"
  | JStr _ => "str"
  | JList _ => "list"
  | JDict _ => "dict"
  end.

(** ** Exceptions *)

(** The exception classes that can occur; every one of them derives from
    [Exception].  [ConditionalCheckFailedException] is the class the
    handlers look for, [ClientError] stands for every other error answer
    of the service, [EndpointConnectionError] for a request that did not
    get through. *)
Inductive exn : Type :=
| KeyError (key : string)
| AttributeError (ty attr : string)
| TypeError (ty : string)
| JSONDecodeError (msg : string)
| ParamValidationError
| ConditionalCheckFailedException
| ClientError (code : string)
| EndpointConnectionError.

Inductive res (A : Type) : Type :=
| Ok (a : A)
| Raise (e : exn).
Arguments Raise {A} e.

(** ** The DynamoDB table *)

(** An attribute value as the service returns it, [{'S': 'A1'}],
    [{'N': '123'}] and so on. *)
Inductive AttributeValue : Type :=
| AV_S (s : string)
| AV_N (n : string)
| AV_B (b : string)
| AV_BOOL (b : bool)
| AV_NULL
| AV_SS (l : list string)
| AV_NS (l : list string)
| AV_BS (l : list string)
| AV_L (l : list AttributeValue)
| AV_M (m : list (string * AttributeValue)).

Definition Item := list (string * AttributeValue).

(** The table in scan order. *)
Definition Table := list Item.

(** Modelled from the spec: the key schema of the table is declared in
    serverless.yml, which is not part of the sources; the data model gives
    [seat_id: string, unique key], that is a partition key [seatId] of
    type S. *)
Definition item_key (it : Item) : option string :=
  match dict_lookup it "seatId" with
  | Some (AV_S k) => Some k
  | _ => None
  end.

Definition has_key (k : string) (it : Item) : bool :=
  match item_key it with
  | Some k' => String.eqb k' k
  | None => false
  end.

(** The item stored under a key, if any. *)
Definition lookup_item (t : Table) (k : string) : option Item :=
  find (has_key k) t.

Definition remove_key (k : string) (t : Table) : Table :=
  filter (fun it => negb (has_key k it)) t.

(** The two condition expressions of the handlers, as the request
    carries them: ['attribute_not_exists(a)'], and ['a = :a'] sent with
    [ExpressionAttributeValues={':a': {'S': v}}]. *)
Inductive condition_expr : Type :=
| attribute_not_exists (a : string)
| attribute_equals (a : string) (v : json).

(** The same once the client has accepted the parameters. *)
Inductive condition : Type :=
| cond_not_exists (a : string)
| cond_equals_S (a : string) (s : string).

(** Modelled from the spec: the store is an external collaborator, and a
    conditional write "applies only if a specified precondition on the
    target key's current state holds; otherwise it fails without side
    effects".  The precondition is evaluated on the item stored under the
    key of the request; when there is none, no attribute exists and a
    comparison is false. *)
Definition eval_condition (c : condition) (existing : option Item) : bool :=
  match c with
  | cond_not_exists a =>
      match existing with
      | None => true
      | Some it =>
          match dict_lookup it a with
          | None => true
          | Some _ => false
          end
      end
  | cond_equals_S a s =>
      match existing with
      | None => false
      | Some it =>
          match dict_lookup it a with
          | Some (AV_S s') => String.eqb s' s
          | _ => false
          end
      end
  end.

(** What can go wrong with one call besides its condition ("any other
    store failure"): an error answer of the service, throttling say, or an
    endpoint that cannot be reached.  Which of them happens, if any, is an
    input of the handlers. *)
Inductive failure : Type :=
| ServiceError (code : string)
| ConnectionError.

Definition failure_exn (f : failure) : exn :=
  match f with
  | ServiceError code => ClientError code
  | ConnectionError => EndpointConnectionError
  end.

(** The calls of the client, as the handlers write them; an attribute
    [name] paired with [v] stands for ['name': {'S': v}]. *)
Inductive api_call : Type :=
| Call_scan
| Call_put_item (item : list (string * json)) (cond : condition_expr)
| Call_delete_item (key : list (string * json)) (cond : condition_expr).

(** ** The world and the monad *)

Record world : Type := World {
  table : Table;
  calls : list api_call;
  stdout : list (string * exn)
}.

Definition set_table (t : Table) (w : world) : world :=
  World t (calls w) (stdout w).

Definition M (A : Type) : Type := world -> res A * world.

Definition ret (A : Type) (a : A) : M A := fun w => (Ok a, w).

Definition raise (A : Type) (e : exn) : M A := fun w => (Raise e, w).
Arguments raise {A} e.

Definition bind (A B : Type) (m : M A) (k : A -> M B) : M B :=
  fun w =>
    match m w with
    | (Ok a, w') => k a w'
    | (Raise e, w') => (Raise e, w')
    end.

(** [try: m  except Exception as e: h e]; what [m] did to the world
    before it raised stays done. *)
Definition try_except (A : Type) (m : M A) (h : exn -> M A) : M A :=
  fun w =>
    match m w with
    | (Ok a, w') => (Ok a, w')
    | (Raise e, w') => h e w'
    end.

Definition lift (A : Type) (r : res A) : M A := fun w => (r, w).

Declare Scope py_scope.
Delimit Scope py_scope with py.
Notation "x <- m ;; k" := (bind m (fun x => k))
  (at level 61, m at next level, right associativity) : py_scope.
Notation "m ;; k" := (bind m (fun _ => k))
  (at level 61, right associativity) : py_scope.
Local Open Scope py_scope.

(** [print(f"<prefix>{e}")]: the line is kept as the prefix and the
    exception it formats. *)
Definition print (prefix : string) (e : exn) : M unit :=
  fun w => (Ok tt, World (table w) (calls w) (stdout w ++ [(prefix, e)])%list).

Definition record_call (c : api_call) : M unit :=
  fun w => (Ok tt, World (table w) (calls w ++ [c])%list (stdout w)).

Definition get_table : M Table := fun w => (Ok (table w), w).

Definition put_table (t : Table) : M unit := fun w => (Ok tt, set_table t w).

(** ** What lies outside the handler *)

(** What the handlers use without this development looking inside:
    [json.loads] on a [str], [json.dumps], [str()] of a value that is not
    a [str]; and, of the service, the number of items it puts in its one
    answer to a scan of a table.  An answer holds what fits in 1 MB; the
    items after that are left to a further call. *)
Class Runtime : Type := {
  json_loads : string -> res json;
  json_dumps : json -> string;
  py_repr : json -> string;
  answer_size : Table -> nat
}.

(** ** The client *)

(** botocore checks the parameters before it sends anything: the member
    [S] of an attribute value has to be a [str]. *)
Fixpoint marshal (l : list (string * json)) : res Item :=
  match l with
  | [] => Ok []
  | (name, JStr s) :: l' =>
      match marshal l' with
      | Ok it => Ok ((name, AV_S s) :: it)
      | Raise e => Raise e
      end
  | _ :: _ => Raise ParamValidationError
  end.

Definition marshal_condition (c : condition_expr) : res condition :=
  match c with
  | attribute_not_exists a => Ok (cond_not_exists a)
  | attribute_equals a (JStr s) => Ok (cond_equals_S a s)
  | attribute_equals _ _ => Raise ParamValidationError
  end.

(** Modelled from the spec: "a request either completes or fails
    outright", so a call that the service or the network fails raises and
    leaves the table as it was. *)
Definition transport (net : option failure) : M unit :=
  match net with
  | Some f => raise (failure_exn f)
  | None => ret tt
  end.

(** The items of one answer to a scan: the first [answer_size] items of
    the table, in scan order. *)
Definition scan_answer {rt : Runtime} (t : Table) : list Item :=
  firstn (answer_size t) t.

(** [dynamodb_client.scan(TableName=table_name)['Items']]: one call, one
    answer.  The handler reads [Items] and never [LastEvaluatedKey], so
    what the service left for a further call is not asked for. *)
Definition scan {rt : Runtime} (net : option failure) : M (list Item) :=
  record_call Call_scan ;;
  transport net ;;
  t <- get_table ;;
  ret (scan_answer t).

(** Modelled from the spec: the conditional put of the store, called as
    [dynamodb_client.put_item(TableName=table_name, Item=item,
    ConditionExpression=cond)]; when the condition holds the item takes
    the place of the one stored under its key, if any. *)
Definition put_item (net : option failure) (item : list (string * json))
    (cond : condition_expr) : M unit :=
  record_call (Call_put_item item cond) ;;
  it <- lift (marshal item) ;;
  c <- lift (marshal_condition cond) ;;
  transport net ;;
  match item_key it with
  | None => raise (ClientError "ValidationException")
  | Some k =>
      t <- get_table ;;
      if eval_condition c (lookup_item t k)
      then put_table (remove_key k t ++ [it])%list
      else raise ConditionalCheckFailedException
  end.

(** Modelled from the spec: the conditional delete of the store, called
    as [dynamodb_client.delete_item(TableName=table_name, Key=key,
    ConditionExpression=cond, ExpressionAttributeValues=...)]. *)
Definition delete_item (net : option failure) (key : list (string * json))
    (cond : condition_expr) : M unit :=
  record_call (Call_delete_item key cond) ;;
  kit <- lift (marshal key) ;;
  c <- lift (marshal_condition cond) ;;
  transport net ;;
  match item_key kit with
  | None => raise (ClientError "ValidationException")
  | Some k =>
      t <- get_table ;;
      if eval_condition c (lookup_item t k)
      then put_table (remove_key k t)
      else raise ConditionalCheckFailedException
  end.

(** ** The handlers *)

Record response : Type := Response {
  statusCode : Z;
  body : string
}.

(** [d[k]] on a dictionary of the service's answer. *)
Definition subscript (A : Type) (d : list (string * A)) (k : string) : res A :=
  match dict_lookup d k with
  | Some v => Ok v
  | None => Raise (KeyError k)
  end.

(** [av['S']] *)
Definition attr_S (av : AttributeValue) : res string :=
  match av with
  | AV_S s => Ok s
  | _ => Raise (KeyError "S")
  end.

Definition message (m : string) : json := JDict [("message", JStr m)].

Section Handler.

Context {rt : Runtime}.

(** [{'statusCode': status, 'body': json.dumps(v)}] *)
Definition json_response (status : Z) (v : json) : response :=
  Response status (json_dumps v).

(** [f"{v}"] *)
Definition py_str (v : json) : string :=
  match v with
  | JStr s => s
  | _ => py_repr v
  end.

(** [json.loads(v)]: anything but a [str] is a [TypeError]. *)
Definition loads (v : json) : M json :=
  match v with
  | JStr s => lift (json_loads s)
  | _ => raise (TypeError (type_name v))
  end.

(** [data.get(k)]: only a [dict] has the method. *)
Definition get (data : json) (k : string) : M json :=
  match data with
  | JDict d => ret (py_get d k)
  | _ => raise (AttributeError (type_name data) "get")
  end.

(** The loop of [get_seats]. *)
Fixpoint seats_of (items : list Item) (seats : dict) : M dict :=
  match items with
  | [] => ret seats
  | item :: items' =>
      a <- lift (subscript item "seatId") ;;
      seat_id <- lift (attr_S a) ;;
      b <- lift (subscript item "reservedBy") ;;
      reserved_by <- lift (attr_S b) ;;
      seats_of items'
        (dict_set seats seat_id (JDict [("reserved_by", JStr reserved_by)]))
  end.

Definition get_seats (net : option failure) : M response :=
  try_except
    (items <- scan net ;;
     seats <- seats_of items [] ;;
     ret (json_response 200 (JDict seats)))
    (fun e =>
       print "Error getting seats: " e ;;
       ret (json_response 500 (message "Failed to retrieve seats."))).

Definition reserve_seat (net : option failure) (data : json) : M response :=
  seat_id <- get data "seatId" ;;
  user_id <- get data "userId" ;;
  if negb (truthy seat_id) || negb (truthy user_id) then
    ret (json_response 400 (message "Seat ID and User ID are required."))
  else
    try_except
      (put_item net [("seatId", seat_id); ("reservedBy", user_id)]
                (attribute_not_exists "seatId") ;;
       ret (json_response 200 (message
              ("Seat " ++ py_str seat_id ++ " reserved successfully."))))
      (fun e =>
         match e with
         | ConditionalCheckFailedException =>
             ret (json_response 409 (message
                    ("Seat " ++ py_str seat_id ++ " is already reserved.")))
         | _ =>
             print "Error reserving seat: " e ;;
             ret (json_response 500 (message
                    "An error occurred during reservation."))
         end).

Definition cancel_seat (net : option failure) (data : json) : M response :=
  seat_id <- get data "seatId" ;;
  user_id <- get data "userId" ;;
  if negb (truthy seat_id) || negb (truthy user_id) then
    ret (json_response 400 (message "Seat ID and User ID are required."))
  else
    try_except
      (delete_item net [("seatId", seat_id)]
                   (attribute_equals "reservedBy" user_id) ;;
       ret (json_response 200 (message
              ("Reservation for seat " ++ py_str seat_id ++ " canceled."))))
      (fun e =>
         match e with
         | ConditionalCheckFailedException =>
             ret (json_response 400 (message
                    "You cannot cancel this reservation as it does not belong to you."))
         | _ =>
             print "Error canceling reservation: " e ;;
             ret (json_response 500 (message
                    "An error occurred while canceling."))
         end).

(** The body of the [try] of [handle_request].  The event is the [dict]
    API Gateway hands over; [context] is not used. *)
Definition dispatch (net : option failure) (event : dict) : M response :=
  let http_method := py_get event "httpMethod" in
  let path := py_get event "path" in
  if py_eq_str http_method "GET" && py_eq_str path "/seats" then
    get_seats net
  else if py_eq_str http_method "POST" && py_eq_str path "/reserve" then
    data <- loads (py_get event "body") ;;
    reserve_seat net data
  else if py_eq_str http_method "POST" && py_eq_str path "/cancel" then
    data <- loads (py_get event "body") ;;
    cancel_seat net data
  else
    ret (json_response 404 (message "Not Found")).

Definition handle_request (net : option failure) (event : dict) : M response :=
  try_except
    (dispatch net event)
    (fun e =>
       print "Error handling request: " e ;;
       ret (json_response 500 (message "An internal error occurred."))).

(** The event carries this method and this path. *)
Definition route_is (event : dict) (method path : string) : Prop :=
  py_get event "httpMethod" = JStr method /\ py_get event "path" = JStr path.

(** The body of the event is a document that decodes to a JSON object
    with the strings [seat] and [user] for [seatId] and [userId]. *)
Definition body_names (event : dict) (seat user : string) : Prop :=
  exists doc d,
    py_get event "body" = JStr doc /\ json_loads doc = Ok (JDict d) /\
    py_get d "seatId" = JStr seat /\ py_get d "userId" = JStr user.

Definition reserve_request (event : dict) (seat user : string) : Prop :=
  route_is event "POST" "/reserve" /\ body_names event seat user.

Definition cancel_request (event : dict) (seat user : string) : Prop :=
  route_is event "POST" "/cancel" /\ body_names event seat user.

(** The worlds the handler can bring about, starting with an empty
    table. *)
Inductive reachable : world -> Prop :=
| reachable_start : reachable (World [] [] [])
| reachable_step (w w' : world) (net : option failure) (event : dict)
                 (r : res response) :
    reachable w -> handle_request net event w = (r, w') -> reachable w'.

End Handler.

(** ** The data model *)

Definition keyed (it : Item) : bool :=
  match item_key it with
  | Some _ => true
  | None => false
  end.

(** What the service guarantees of a table with this key schema: every
    item has its key, and no two items share one. *)
Definition table_ok (t : Table) : Prop :=
  Forall (fun it => keyed it = true) t /\ NoDup (map item_key t).

(** A reservation as the data model has it: a string [seatId] and a
    string [reservedBy]. *)
Definition well_formed (it : Item) : bool :=
  match dict_lookup it "seatId", dict_lookup it "reservedBy" with
  | Some (AV_S _), Some (AV_S _) => true
  | _, _ => false
  end.

(** The table holds a record for [seat] whose [reservedBy] is the string
    [user]. *)
Definition owned_by (t : Table) (seat user : string) : Prop :=
  exists it,
    lookup_item t seat = Some it /\ dict_lookup it "reservedBy" = Some (AV_S user).

(** The item [reserve_seat] writes. *)
Definition reservation (seat user : string) : Item :=
  [("seatId", AV_S seat); ("reservedBy", AV_S user)].

(** The entry of the listing for one reservation. *)
Definition seat_entry (user : string) : json :=
  JDict [("reserved_by", JStr user)].

Definition entry_of (it : Item) : option json :=
  match dict_lookup it "reservedBy" with
  | Some (AV_S user) => Some (seat_entry user)
  | _ => None
  end.

(** The calls of [reserve_seat] and [cancel_seat], and the two ways a
    handler marks the world without touching the table. *)
Definition reserve_call (seat user : json) : api_call :=
  Call_put_item [("seatId", seat); ("reservedBy", user)]
                (attribute_not_exists "seatId").

Definition cancel_call (seat user : json) : api_call :=
  Call_delete_item [("seatId", seat)] (attribute_equals "reservedBy" user).

Definition called (c : api_call) (w : world) : world :=
  World (table w) (calls w ++ [c]) (stdout w).

Definition printed (prefix : string) (e : exn) (w : world) : world :=
  World (table w) (calls w) (stdout w ++ [(prefix, e)]).

(** An API Gateway event, cut down to the three fields the handler
    reads. *)
Definition request (method path : string) (body : json) : dict :=
  [("httpMethod", JStr method); ("path", JStr path); ("body", body)].

(** ** What a request can come to *)

Definition is_str (v : json) : bool :=
  match v with
  | JStr _ => true
  | _ => false
  end.

(** The exception of a call that does not get as far as its condition:
    a parameter the client refuses, or else the failure of the service or
    of the network, if there is one. *)
Definition call_error (net : option failure) (params : list json) : option exn :=
  if forallb is_str params then option_map failure_exn net
  else Some ParamValidationError.

(** A record written by [reserve_seat]: two strings, neither empty. *)
Definition written (it : Item) : Prop :=
  exists seat user,
    it = reservation seat user /\ seat <> EmptyString /\ user <> EmptyString.

(** The status codes of the answers to a route. *)
Definition statuses (event : dict) : list Z :=
  if py_eq_str (py_get event "httpMethod") "GET"
     && py_eq_str (py_get event "path") "/seats" then [200; 500]%Z
  else if py_eq_str (py_get event "httpMethod") "POST"
          && py_eq_str (py_get event "path") "/reserve" then [200; 400; 409; 500]%Z
  else if py_eq_str (py_get event "httpMethod") "POST"
          && py_eq_str (py_get event "path") "/cancel" then [200; 400; 500]%Z
  else [404]%Z.

(** ** An instance of the parameters, for the examples

    A decoder that knows a few documents and rejects the rest; an encoder
    for the values the handlers print, without escapes (the numbers, which
    the handlers never print, are all written [0]); a [repr] that is never
    looked at; a service whose answers to a scan hold two items. *)
Module Sample.

Definition quoted (s : string) : string :=
  String (Ascii.ascii_of_nat 34) (s ++ String (Ascii.ascii_of_nat 34) EmptyString).

Definition document (seat user : string) : string :=
  "{" ++ quoted "seatId" ++ ": " ++ quoted seat ++ ", "
      ++ quoted "userId" ++ ": " ++ quoted user ++ "}".

Definition data (seat user : string) : json :=
  JDict [("seatId", JStr seat); ("userId", JStr user)].

Definition loads (s : string) : res json :=
  if String.eqb s (document "A1" "u1") then Ok (data "A1" "u1")
  else if String.eqb s (document "A1" "u2") then Ok (data "A1" "u2")
  else if String.eqb s (document EmptyString "u1") then Ok (data EmptyString "u1")
  else if String.eqb s ("{" ++ quoted "seatId" ++ ": " ++ quoted "A1" ++ "}")
       then Ok (JDict [("seatId", JStr "A1")])
  else if String.eqb s "[]" then Ok (JList [])
  else Raise (JSONDecodeError "Expecting value").

Fixpoint dumps (v : json) : string :=
  match v with
  | JNull => "null"
  | JBool true => "true"
  | JBool false => "false"
  | JInt _ => "0"
  | JFloat _ => "0"
  | JStr s => quoted s
  | JList l =>
      "[" ++ (fix elements (l : list json) : string :=
                match l with
                | [] => EmptyString
                | [x] => dumps x
                | x :: l' => dumps x ++ ", " ++ elements l'
                end) l ++ "]"
  | JDict d =>
      "{" ++ (fix members (d : list (string * json)) : string :=
                match d with
                | [] => EmptyString
                | [(k, x)] => quoted k ++ ": " ++ dumps x
                | (k, x) :: d' => quoted k ++ ": " ++ dumps x ++ ", " ++ members d'
                end) d ++ "}"
  end.

Definition repr (_ : json) : string := "?".

Definition runtime : Runtime :=
  {| json_loads := loads; json_dumps := dumps; py_repr := repr;
     answer_size := fun _ => 2 |}.

Definition empty : world := World [] [] [].

(** Seat A1 reserved by u1. *)
Definition A1_u1 : world := World [reservation "A1" "u1"] [] [].

(** Three seats reserved, one more than an answer holds. *)
Definition three_seats : world :=
  World [reservation "A1" "u1"; reservation "B2" "u2"; reservation "C3" "u3"]
        [] [].

(** Seat B2 with a record that has no [reservedBy]. *)
Definition malformed_B2 : world := World [[("seatId", AV_S "B2")]] [] [].

End Sample.


(** * Properties *)

Local Open Scope list_scope.

(** ** The table *)

Lemma has_key_inj (k k' : string) (it : Item) :
  has_key k it = true -> has_key k' it = true -> k = k'.
Proof.
  unfold has_key. destruct (item_key it) as [k0|]; try discriminate.
  intros H H'. apply String.eqb_eq in H, H'. congruence.
Qed.

Lemma has_key_item_key (k : string) (it : Item) :
  has_key k it = true <-> item_key it = Some k.
Proof.
  unfold has_key. destruct (item_key it) as [k0|].
  - rewrite String.eqb_eq. split; congruence.
  - split; discriminate.
Qed.

Lemma lookup_item_has_key (t : Table) (k : string) (it : Item) :
  lookup_item t k = Some it -> In it t /\ item_key it = Some k.
Proof.
  intros H. apply find_some in H. destruct H as [Hin Hk].
  split; [assumption | now apply has_key_item_key].
Qed.

Lemma remove_key_absent (t : Table) (k : string) :
  lookup_item t k = None -> remove_key k t = t.
Proof.
  unfold lookup_item, remove_key. induction t as [|it t IH]; simpl; [reflexivity|].
  destruct (has_key k it); [discriminate|]. intros H. simpl. now rewrite IH.
Qed.

Lemma lookup_remove_same (t : Table) (k : string) :
  lookup_item (remove_key k t) k = None.
Proof.
  unfold lookup_item, remove_key. induction t as [|it t IH]; simpl; [reflexivity|].
  destruct (has_key k it) eqn:E; simpl; [assumption|]. now rewrite E.
Qed.

Lemma lookup_remove_other (t : Table) (k k' : string) :
  k' <> k -> lookup_item (remove_key k t) k' = lookup_item t k'.
Proof.
  intros Hne. unfold lookup_item, remove_key.
  induction t as [|it t IH]; simpl; [reflexivity|].
  destruct (has_key k it) eqn:E; simpl.
  - destruct (has_key k' it) eqn:E'; [|assumption].
    exfalso. apply Hne. exact (has_key_inj _ _ _ E' E).
  - destruct (has_key k' it); [reflexivity | assumption].
Qed.

Lemma lookup_app (t : Table) (it : Item) (k : string) :
  lookup_item (t ++ [it]) k =
  match lookup_item t k with
  | Some x => Some x
  | None => if has_key k it then Some it else None
  end.
Proof.
  unfold lookup_item. induction t as [|x t IH]; simpl.
  - reflexivity.
  - destruct (has_key k x); [reflexivity | assumption].
Qed.

Lemma has_key_reservation (k seat user : string) :
  has_key k (reservation seat user) = String.eqb seat k.
Proof. reflexivity. Qed.

(** In a table with one item to a key, two items of the same key are the
    same item. *)
Lemma same_key_same_item (t : Table) (x y : Item) :
  NoDup (map item_key t) -> In x t -> In y t -> item_key x = item_key y -> x = y.
Proof.
  induction t as [|it t IH]; simpl; [contradiction|].
  rewrite NoDup_cons_iff. intros [Hfresh Hnd] [->|Hx] [->|Hy] E; auto.
  - exfalso. apply Hfresh. rewrite E. now apply in_map.
  - exfalso. apply Hfresh. rewrite <- E. now apply in_map.
Qed.

(** With one item to a key, it does not matter from which end the table
    is searched. *)
Lemma lookup_item_rev (t : Table) (k : string) :
  NoDup (map item_key t) -> lookup_item (rev t) k = lookup_item t k.
Proof.
  intros Hnd. unfold lookup_item.
  destruct (find (has_key k) t) as [it|] eqn:E1;
    destruct (find (has_key k) (rev t)) as [it'|] eqn:E2; try reflexivity.
  - apply find_some in E1, E2. destruct E1 as [Hin Hk], E2 as [Hin' Hk'].
    apply in_rev in Hin'. apply has_key_item_key in Hk, Hk'.
    f_equal. apply (same_key_same_item t); congruence.
  - apply find_some in E1. destruct E1 as [Hin Hk].
    apply in_rev in Hin. rewrite (find_none _ _ E2 _ Hin) in Hk. discriminate.
  - apply find_some in E2. destruct E2 as [Hin Hk].
    apply in_rev in Hin. rewrite (find_none _ _ E1 _ Hin) in Hk. discriminate.
Qed.

Lemma remove_key_rev (t : Table) (k : string) :
  remove_key k (rev t) = rev (remove_key k t).
Proof. apply filter_rev. Qed.

Lemma lookup_item_app (t t' : Table) (k : string) :
  lookup_item (t ++ t') k =
  match lookup_item t k with
  | Some it => Some it
  | None => lookup_item t' k
  end.
Proof.
  unfold lookup_item. induction t as [|x t IH]; simpl; [reflexivity|].
  now destruct (has_key k x).
Qed.

Lemma key_not_in_lookup (t : Table) (k : string) :
  ~ In (Some k) (map item_key t) -> lookup_item t k = None.
Proof.
  intros Hnot. destruct (lookup_item t k) as [it|] eqn:E; [|reflexivity].
  apply lookup_item_has_key in E. destruct E as [Hin Hk].
  exfalso. apply Hnot. rewrite <- Hk. now apply in_map.
Qed.

(** *** The invariant of the table under the two writes *)

Lemma absent_key_not_in (t : Table) (k : string) :
  lookup_item t k = None -> ~ In (Some k) (map item_key t).
Proof.
  intros Hnone Hin. apply in_map_iff in Hin. destruct Hin as (it & Hk & Hin).
  apply has_key_item_key in Hk.
  unfold lookup_item in Hnone. rewrite (find_none _ _ Hnone _ Hin) in Hk.
  discriminate.
Qed.

Lemma table_ok_app (t : Table) (seat user : string) :
  table_ok t -> lookup_item t seat = None ->
  table_ok (t ++ [reservation seat user]).
Proof.
  intros [Hkeyed Hnd] Hnone. split.
  - apply Forall_app. split; [assumption|]. now constructor.
  - rewrite map_app. apply NoDup_app; [assumption | |].
    + constructor; [intros [] | constructor].
    + intros a Ha [<-|[]]. revert Ha. now apply absent_key_not_in.
Qed.

Lemma remove_key_keeps (t : Table) (k : string) (it : Item) :
  In it (remove_key k t) -> In it t.
Proof. intros H. apply filter_In in H. apply H. Qed.

Lemma remove_key_well (P : Item -> Prop) (t : Table) (k : string) :
  Forall P t -> Forall P (remove_key k t).
Proof.
  rewrite !Forall_forall. intros H it Hin. eapply H, remove_key_keeps, Hin.
Qed.

Lemma remove_key_unique (t : Table) (k : string) :
  NoDup (map item_key t) -> NoDup (map item_key (remove_key k t)).
Proof.
  unfold remove_key. induction t as [|it t IH]; simpl; [trivial|].
  rewrite NoDup_cons_iff. intros [Hfresh Hnd].
  destruct (has_key k it); simpl; [now apply IH|].
  apply NoDup_cons; [|now apply IH].
  intros Hin. apply Hfresh. apply in_map_iff in Hin.
  destruct Hin as (x & Hx & Hin). rewrite <- Hx.
  apply in_map. eapply remove_key_keeps. exact Hin.
Qed.

Lemma table_ok_remove (t : Table) (k : string) :
  table_ok t -> table_ok (remove_key k t).
Proof.
  intros [Hkeyed Hnd]. split.
  - now apply remove_key_well.
  - now apply remove_key_unique.
Qed.

(** A record appended for a free seat: the new record is the only new
    answer of [lookup_item]. *)
Lemma lookup_after_append (t : Table) (seat user k : string) :
  lookup_item t seat = None ->
  lookup_item (t ++ [reservation seat user]) k =
  if String.eqb seat k then Some (reservation seat user) else lookup_item t k.
Proof.
  intros Hfree. rewrite lookup_app, has_key_reservation.
  destruct (String.eqb_spec seat k) as [<-|Hne].
  - now rewrite Hfree.
  - now destruct (lookup_item t k).
Qed.

Lemma lookup_after_remove (t : Table) (seat k : string) :
  lookup_item (remove_key seat t) k =
  if String.eqb seat k then None else lookup_item t k.
Proof.
  destruct (String.eqb_spec seat k) as [<-|Hne].
  - apply lookup_remove_same.
  - apply lookup_remove_other. congruence.
Qed.

(** ** The client calls of the handlers *)

Lemma lookup_item_exists_seatId (t : Table) (k : string) (it : Item) :
  lookup_item t k = Some it -> dict_lookup it "seatId" = Some (AV_S k).
Proof.
  intros H. apply lookup_item_has_key in H. destruct H as [_ H].
  unfold item_key in H.
  destruct (dict_lookup it "seatId") as [[]|]; congruence.
Qed.

Lemma put_item_run (seat user : string) (w : world) :
  put_item None [("seatId", JStr seat); ("reservedBy", JStr user)]
           (attribute_not_exists "seatId") w =
  match lookup_item (table w) seat with
  | None =>
      (Ok tt, set_table (table w ++ [reservation seat user])
                (called (reserve_call (JStr seat) (JStr user)) w))
  | Some _ =>
      (Raise ConditionalCheckFailedException,
       called (reserve_call (JStr seat) (JStr user)) w)
  end.
Proof.
  unfold put_item, bind, record_call, lift, transport, ret, get_table. simpl.
  destruct (lookup_item (table w) seat) as [it|] eqn:E.
  - rewrite (lookup_item_exists_seatId _ _ E). reflexivity.
  - unfold put_table, set_table, called. simpl. now rewrite (remove_key_absent _ _ E).
Qed.

Lemma delete_item_run (seat user : string) (w : world) :
  delete_item None [("seatId", JStr seat)]
              (attribute_equals "reservedBy" (JStr user)) w =
  if eval_condition (cond_equals_S "reservedBy" user) (lookup_item (table w) seat)
  then (Ok tt, set_table (remove_key seat (table w))
                 (called (cancel_call (JStr seat) (JStr user)) w))
  else (Raise ConditionalCheckFailedException,
        called (cancel_call (JStr seat) (JStr user)) w).
Proof.
  unfold delete_item, bind, record_call, lift, transport, ret, get_table. simpl.
  destruct (lookup_item (table w) seat) as [it|]; [|reflexivity].
  destruct (dict_lookup it "reservedBy") as [[]|]; try reflexivity.
  destruct (String.eqb s user); reflexivity.
Qed.

Lemma put_item_failed (f : failure) (seat user : string) (w : world) :
  put_item (Some f) [("seatId", JStr seat); ("reservedBy", JStr user)]
           (attribute_not_exists "seatId") w =
  (Raise (failure_exn f), called (reserve_call (JStr seat) (JStr user)) w).
Proof. reflexivity. Qed.

Lemma delete_item_failed (f : failure) (seat user : string) (w : world) :
  delete_item (Some f) [("seatId", JStr seat)]
              (attribute_equals "reservedBy" (JStr user)) w =
  (Raise (failure_exn f), called (cancel_call (JStr seat) (JStr user)) w).
Proof. reflexivity. Qed.

(** ** Dictionaries *)

Lemma dict_lookup_set (A : Type) (d : list (string * A)) (k k' : string) (v : A) :
  dict_lookup (dict_set d k v) k' =
  if String.eqb k k' then Some v else dict_lookup d k'.
Proof.
  induction d as [|[k0 v0] d IH]; simpl.
  - reflexivity.
  - destruct (String.eqb k0 k) eqn:E; simpl.
    + apply String.eqb_eq in E. subst k0. destruct (String.eqb k k'); reflexivity.
    + destruct (String.eqb k0 k') eqn:E'; [|assumption].
      apply String.eqb_eq in E'. subst k0. now rewrite String.eqb_sym, E.
Qed.

Lemma dict_set_keys (A : Type) (d : list (string * A)) (k : string) (v : A) :
  NoDup (map fst d) -> NoDup (map fst (dict_set d k v)).
Proof.
  induction d as [|[k0 v0] d IH]; simpl; intros H.
  - constructor; [intros [] | constructor].
  - destruct (String.eqb k0 k) eqn:E; simpl; [assumption|].
    inversion H as [|? ? Hnin Hnd]; subst. constructor; [|auto].
    intros Hin. apply Hnin. clear - Hin E.
    induction d as [|[k1 v1] d IH]; simpl in *.
    + destruct Hin as [Hin|[]]. subst k0. now rewrite String.eqb_refl in E.
    + destruct (String.eqb k1 k); simpl in Hin; tauto.
Qed.

(** ** The handlers *)

Section HandlerProperties.

Context {rt : Runtime}.

(** *** The listing *)

Lemma well_formed_fields (it : Item) :
  well_formed it = true ->
  exists seat user,
    dict_lookup it "seatId" = Some (AV_S seat) /\
    dict_lookup it "reservedBy" = Some (AV_S user).
Proof.
  unfold well_formed.
  destruct (dict_lookup it "seatId") as [[]|]; try discriminate.
  destruct (dict_lookup it "reservedBy") as [[]|]; try discriminate.
  intros _. eauto.
Qed.

(** The loop over well-formed items: the last item of a key gives its
    entry. *)
Lemma seats_of_listing (items : list Item) :
  forall (seats : dict) (w : world),
    Forall (fun it => well_formed it = true) items ->
    exists seats',
      seats_of items seats w = (Ok seats', w) /\
      (NoDup (map fst seats) -> NoDup (map fst seats')) /\
      forall k,
        dict_lookup seats' k =
        match lookup_item (rev items) k with
        | Some it => entry_of it
        | None => dict_lookup seats k
        end.
Proof.
  induction items as [|it items IH]; intros seats w Hwf.
  - exists seats. repeat split; auto.
  - inversion Hwf as [|? ? Hit Hrest]; subst.
    destruct (well_formed_fields _ Hit) as (seat & user & Hs & Hu).
    destruct (IH (dict_set seats seat (seat_entry user)) w Hrest)
      as (seats' & Hrun & Hnd & Hlook).
    exists seats'. split; [|split].
    + simpl. unfold bind, lift, subscript. rewrite Hs. simpl. rewrite Hu. exact Hrun.
    + intros H. apply Hnd. now apply dict_set_keys.
    + intros k. rewrite Hlook. simpl rev. rewrite lookup_app.
      destruct (lookup_item (rev items) k); [reflexivity|].
      rewrite dict_lookup_set. unfold has_key, item_key, entry_of.
      rewrite Hs. destruct (String.eqb seat k); [now rewrite Hu | reflexivity].
Qed.

(** The loop stops at the first item that is not well formed. *)
Lemma seats_of_malformed (items : list Item) :
  forall (seats : dict) (w : world),
    Exists (fun it => well_formed it = false) items ->
    exists e, seats_of items seats w = (Raise e, w).
Proof.
  induction items as [|it items IH]; intros seats w Hex.
  - inversion Hex.
  - simpl. unfold bind, lift, subscript.
    destruct (well_formed it) eqn:Hit.
    + destruct (well_formed_fields _ Hit) as (seat & user & Hs & Hu).
      rewrite Hs. simpl. rewrite Hu. simpl. apply IH.
      inversion Hex; subst; [congruence | assumption].
    + unfold well_formed in Hit.
      destruct (dict_lookup it "seatId") as [[]|]; simpl; eauto.
      destruct (dict_lookup it "reservedBy") as [[]|]; simpl; eauto.
      discriminate.
Qed.

Lemma seats_of_world (items : list Item) :
  forall (seats : dict) (w : world), snd (seats_of items seats w) = w.
Proof.
  induction items as [|it items IH]; intros seats w; [reflexivity|].
  simpl. unfold bind, lift, subscript.
  destruct (dict_lookup it "seatId") as [[]|]; try reflexivity.
  destruct (dict_lookup it "reservedBy") as [[]|]; try reflexivity.
  simpl. destruct (seats_of _ _ _) as [[] w'] eqn:E;
    pose proof (IH (dict_set seats s (JDict [("reserved_by", JStr s0)])) w) as H;
    rewrite E in H; simpl in H; now subst.
Qed.

(** One answer is the beginning of the table. *)
Lemma scan_answer_split (t : Table) :
  scan_answer t ++ skipn (answer_size t) t = t.
Proof. apply firstn_skipn. Qed.

Lemma scan_answer_whole (t : Table) :
  length t <= answer_size t -> scan_answer t = t.
Proof. apply firstn_all2. Qed.

Lemma scan_answer_in (t : Table) (it : Item) :
  In it (scan_answer t) -> In it t.
Proof.
  intros H. rewrite <- (scan_answer_split t). apply in_or_app. now left.
Qed.

Lemma scan_answer_forall (P : Item -> Prop) (t : Table) :
  Forall P t -> Forall P (scan_answer t).
Proof.
  rewrite !Forall_forall. intros H it Hin. apply H. now apply scan_answer_in.
Qed.

Lemma scan_answer_unique (t : Table) :
  NoDup (map item_key t) -> NoDup (map item_key (scan_answer t)).
Proof.
  intros H. rewrite <- (scan_answer_split t), map_app in H.
  now apply NoDup_app_remove_r in H.
Qed.

Lemma get_seats_run (seats : dict) (w : world) :
  seats_of (scan_answer (table w)) [] (called Call_scan w)
  = (Ok seats, called Call_scan w) ->
  get_seats None w = (Ok (json_response 200 (JDict seats)), called Call_scan w).
Proof.
  intros Hrun.
  unfold get_seats, try_except, bind, scan, record_call, transport, ret, get_table.
  simpl. unfold called in Hrun. simpl in Hrun. now rewrite Hrun.
Qed.

Lemma get_seats_listing (w : world) :
  Forall (fun it => well_formed it = true) (scan_answer (table w)) ->
  exists seats,
    get_seats None w = (Ok (json_response 200 (JDict seats)), called Call_scan w) /\
    NoDup (map fst seats) /\
    forall k,
      dict_lookup seats k =
      match lookup_item (rev (scan_answer (table w))) k with
      | Some it => entry_of it
      | None => None
      end.
Proof.
  intros Hwf.
  destruct (seats_of_listing [] (called Call_scan w) Hwf) as (seats & Hrun & Hnd & Hlook).
  exists seats. split; [|split].
  - now apply get_seats_run.
  - apply Hnd. constructor.
  - exact Hlook.
Qed.

Lemma get_seats_failed (f : failure) (w : world) :
  get_seats (Some f) w =
  (Ok (json_response 500 (message "Failed to retrieve seats.")),
   printed "Error getting seats: " (failure_exn f) (called Call_scan w)).
Proof. reflexivity. Qed.

Lemma get_seats_malformed (w : world) :
  Exists (fun it => well_formed it = false) (scan_answer (table w)) ->
  exists e,
    get_seats None w =
    (Ok (json_response 500 (message "Failed to retrieve seats.")),
     printed "Error getting seats: " e (called Call_scan w)).
Proof.
  intros Hex.
  destruct (seats_of_malformed [] (called Call_scan w) Hex) as (e & Hrun).
  exists e.
  unfold get_seats, try_except, bind, scan, record_call, transport, ret, get_table.
  simpl. unfold called in Hrun. simpl in Hrun. rewrite Hrun. reflexivity.
Qed.

(** [get_seats] always returns, and never writes to the table. *)
Lemma get_seats_returns (net : option failure) (w : world) :
  exists r w', get_seats net w = (Ok r, w') /\ table w' = table w.
Proof.
  destruct net as [f|].
  - rewrite get_seats_failed. eauto.
  - unfold get_seats, try_except, bind, scan, record_call, transport, ret, get_table.
    simpl.
    pose proof (seats_of_world (scan_answer (table w)) []
                  (World (table w) (calls w ++ [Call_scan]) (stdout w))) as H.
    destruct (seats_of _ _ _) as [[seats|e] w']; simpl in H; subst w'; eauto.
Qed.

(** The listing of a table whose answer is well formed and has one item
    to a seat: the entries are those of the answer. *)
Lemma get_seats_entries (w : world) :
  NoDup (map item_key (table w)) ->
  Forall (fun it => well_formed it = true) (scan_answer (table w)) ->
  exists seats,
    get_seats None w = (Ok (json_response 200 (JDict seats)), called Call_scan w) /\
    NoDup (map fst seats) /\
    forall k v,
      dict_lookup seats k = Some v <->
      exists user, owned_by (scan_answer (table w)) k user /\ v = seat_entry user.
Proof.
  intros Hnd Hwf.
  destruct (get_seats_listing w Hwf) as (seats & Hrun & Hkeys & Hlook).
  exists seats. split; [exact Hrun|]. split; [exact Hkeys|].
  intros k v. rewrite Hlook, (lookup_item_rev _ k (scan_answer_unique _ Hnd)).
  unfold owned_by, entry_of. split.
  - destruct (lookup_item (scan_answer (table w)) k) as [it|]; [|discriminate].
    destruct (dict_lookup it "reservedBy") as [[]|] eqn:E; try discriminate.
    intros [= <-]. eauto.
  - intros (user & (it & -> & ->) & ->). reflexivity.
Qed.

(** C5. The claim fails on the code.  [get_seats] lists the one answer
    of its one scan: when the table, one well-formed record to a seat,
    does not fit the answer, the response is still 200 and a seat that is
    held is missing from its body. *)
Theorem get_seats_lists_one_answer (w : world) :
  table_ok (table w) ->
  Forall (fun it => well_formed it = true) (table w) ->
  answer_size (table w) < length (table w) ->
  exists seats seat user,
    get_seats None w = (Ok (json_response 200 (JDict seats)), called Call_scan w) /\
    owned_by (table w) seat user /\
    dict_lookup seats seat = None.
Proof.
  intros [_ Hnd] Hwf Hlt.
  pose proof (scan_answer_split (table w)) as Hsplit.
  destruct (skipn (answer_size (table w)) (table w)) as [|it rest] eqn:Hrest.
  { exfalso. rewrite app_nil_r in Hsplit.
    pose proof (firstn_le_length (answer_size (table w)) (table w)) as Hle.
    unfold scan_answer in Hsplit. rewrite Hsplit in Hle. lia. }
  assert (Hwf' : Forall (fun it => well_formed it = true)
                   (scan_answer (table w) ++ it :: rest))
    by (rewrite Hsplit; exact Hwf).
  apply Forall_app in Hwf'. destruct Hwf' as [Hpage Hlater].
  inversion Hlater as [|? ? Hit _]; subst.
  destruct (well_formed_fields _ Hit) as (seat & user & Hs & Hu).
  assert (Hk : item_key it = Some seat) by (unfold item_key; now rewrite Hs).
  assert (Hnot : ~ In (Some seat) (map item_key (scan_answer (table w)))).
  { rewrite <- Hsplit, map_app in Hnd. simpl in Hnd. rewrite Hk in Hnd.
    intros Hin. apply (NoDup_remove_2 _ _ _ Hnd). apply in_or_app. now left. }
  destruct (get_seats_listing w Hpage) as (seats & Hrun & _ & Hlook).
  exists seats, seat, user. split; [exact Hrun|]. split.
  - exists it. split; [|exact Hu].
    rewrite <- Hsplit, lookup_item_app, (key_not_in_lookup _ _ Hnot).
    unfold lookup_item. simpl. unfold has_key. rewrite Hk, String.eqb_refl.
    reflexivity.
  - rewrite Hlook, key_not_in_lookup; [reflexivity|].
    rewrite map_rev, <- in_rev. exact Hnot.
Qed.

(** *** Validation *)

Lemma reserve_seat_invalid (net : option failure) (d : dict) (w : world) :
  truthy (py_get d "seatId") && truthy (py_get d "userId") = false ->
  reserve_seat net (JDict d) w =
  (Ok (json_response 400 (message "Seat ID and User ID are required.")), w).
Proof.
  intros H. unfold reserve_seat, get, bind, ret.
  rewrite <- negb_andb, H. reflexivity.
Qed.

Lemma cancel_seat_invalid (net : option failure) (d : dict) (w : world) :
  truthy (py_get d "seatId") && truthy (py_get d "userId") = false ->
  cancel_seat net (JDict d) w =
  (Ok (json_response 400 (message "Seat ID and User ID are required.")), w).
Proof.
  intros H. unfold cancel_seat, get, bind, ret.
  rewrite <- negb_andb, H. reflexivity.
Qed.

(** *** Reserve and cancel with two strings *)

Lemma reserve_seat_strings (seat user : string) (d : dict) (w : world) :
  py_get d "seatId" = JStr seat -> seat <> EmptyString ->
  py_get d "userId" = JStr user -> user <> EmptyString ->
  reserve_seat None (JDict d) w =
  match lookup_item (table w) seat with
  | None =>
      (Ok (json_response 200
             (message ("Seat " ++ seat ++ " reserved successfully.")%string)),
       set_table (table w ++ [reservation seat user])
         (called (reserve_call (JStr seat) (JStr user)) w))
  | Some _ =>
      (Ok (json_response 409
             (message ("Seat " ++ seat ++ " is already reserved.")%string)),
       called (reserve_call (JStr seat) (JStr user)) w)
  end.
Proof.
  intros Hs Hs' Hu Hu'.
  unfold reserve_seat, get, bind, ret, try_except. rewrite Hs, Hu.
  apply String.eqb_neq in Hs', Hu'. simpl. rewrite Hs', Hu'. simpl.
  rewrite put_item_run.
  destruct (lookup_item (table w) seat); reflexivity.
Qed.

Lemma cancel_seat_strings (seat user : string) (d : dict) (w : world) :
  py_get d "seatId" = JStr seat -> seat <> EmptyString ->
  py_get d "userId" = JStr user -> user <> EmptyString ->
  cancel_seat None (JDict d) w =
  if eval_condition (cond_equals_S "reservedBy" user) (lookup_item (table w) seat)
  then
    (Ok (json_response 200
           (message ("Reservation for seat " ++ seat ++ " canceled.")%string)),
     set_table (remove_key seat (table w))
       (called (cancel_call (JStr seat) (JStr user)) w))
  else
    (Ok (json_response 400
           (message "You cannot cancel this reservation as it does not belong to you.")),
     called (cancel_call (JStr seat) (JStr user)) w).
Proof.
  intros Hs Hs' Hu Hu'.
  remember (eval_condition _ _) as holds eqn:E.
  unfold cancel_seat, get, bind, ret, try_except. rewrite Hs, Hu.
  apply String.eqb_neq in Hs', Hu'. simpl. rewrite Hs', Hu'. simpl.
  rewrite delete_item_run, <- E.
  destruct holds; reflexivity.
Qed.

Lemma eval_condition_owned (t : Table) (seat user : string) :
  eval_condition (cond_equals_S "reservedBy" user) (lookup_item t seat) = true
  <-> owned_by t seat user.
Proof.
  unfold owned_by, eval_condition. split.
  - destruct (lookup_item t seat) as [it|]; [|discriminate].
    destruct (dict_lookup it "reservedBy") as [[]|] eqn:E; try discriminate.
    intros H. apply String.eqb_eq in H. subst. now exists it.
  - intros (it & -> & ->). apply String.eqb_refl.
Qed.

(** C1. A reserve request with a non-empty string [seatId] and a non-empty
    string [userId], the call to the store going through: when the table
    holds no record for the seat, [reserve_seat] appends the record
    [{seatId, reservedBy: userId}] and answers 200 with the message
    "Seat <seatId> reserved successfully."; when it holds one, the answer
    is 409 with "Seat <seatId> is already reserved." and the table is the
    one before. *)
Theorem reserve_seat_spec (d : dict) (seat user : string) (w : world) :
  py_get d "seatId" = JStr seat -> seat <> EmptyString ->
  py_get d "userId" = JStr user -> user <> EmptyString ->
  (lookup_item (table w) seat = None ->
   reserve_seat None (JDict d) w =
   (Ok (json_response 200
          (message ("Seat " ++ seat ++ " reserved successfully.")%string)),
    World (table w ++ [reservation seat user])
          (calls w ++ [reserve_call (JStr seat) (JStr user)])
          (stdout w))
   /\ lookup_item (table w ++ [reservation seat user]) seat
      = Some (reservation seat user))
  /\
  (forall it, lookup_item (table w) seat = Some it ->
   reserve_seat None (JDict d) w =
   (Ok (json_response 409
          (message ("Seat " ++ seat ++ " is already reserved.")%string)),
    World (table w)
          (calls w ++ [reserve_call (JStr seat) (JStr user)])
          (stdout w))).
Proof.
  intros Hs Hs' Hu Hu'.
  rewrite reserve_seat_strings with (seat := seat) (user := user) by assumption.
  split.
  - intros E. rewrite E. split; [reflexivity|].
    rewrite lookup_app, E, has_key_reservation, String.eqb_refl. reflexivity.
  - intros it E. rewrite E. reflexivity.
Qed.

(** C2. A cancel request with a non-empty string [seatId] and a non-empty
    string [userId], the call to the store going through: [cancel_seat]
    answers 200 if and only if the table holds a record for the seat whose
    [reservedBy] is the given user, and then the record is gone; when
    there is no record for the seat, or its [reservedBy] is something
    else, the answer is 400 with "You cannot cancel this reservation as it
    does not belong to you." and the table is the one before. *)
Theorem cancel_seat_spec (d : dict) (seat user : string) (w : world) :
  py_get d "seatId" = JStr seat -> seat <> EmptyString ->
  py_get d "userId" = JStr user -> user <> EmptyString ->
  exists r w',
    cancel_seat None (JDict d) w = (Ok r, w') /\
    (statusCode r = 200%Z <-> owned_by (table w) seat user) /\
    (owned_by (table w) seat user ->
     r = json_response 200
           (message ("Reservation for seat " ++ seat ++ " canceled.")%string) /\
     w' = World (remove_key seat (table w))
                (calls w ++ [cancel_call (JStr seat) (JStr user)])
                (stdout w) /\
     lookup_item (table w') seat = None) /\
    (~ owned_by (table w) seat user ->
     r = json_response 400
           (message "You cannot cancel this reservation as it does not belong to you.") /\
     w' = World (table w)
                (calls w ++ [cancel_call (JStr seat) (JStr user)])
                (stdout w)).
Proof.
  intros Hs Hs' Hu Hu'.
  rewrite cancel_seat_strings with (seat := seat) (user := user) by assumption.
  pose proof (eval_condition_owned (table w) seat user) as Hown.
  destruct (eval_condition _ _).
  - assert (Ho : owned_by (table w) seat user) by now apply Hown.
    eexists _, _. split; [reflexivity|]. repeat split; auto.
    + simpl. apply lookup_remove_same.
    + contradiction.
    + contradiction.
  - assert (Ho : ~ owned_by (table w) seat user).
    { intros H. apply Hown in H. discriminate. }
    eexists _, _. split; [reflexivity|]. repeat split; try contradiction.
    simpl. discriminate.
Qed.

Lemma truthy_missing (d : dict) (k : string) :
  dict_lookup d k = None -> truthy (py_get d k) = false.
Proof. unfold py_get. now intros ->. Qed.

(** C6. A reserve or cancel request whose JSON object has no [seatId] or
    no [userId]: the handler answers 400 with "Seat ID and User ID are
    required." and leaves the world as it was: no call to the store, the
    table unchanged. *)
Theorem missing_field_rejected (net : option failure) (d : dict) (w : world) :
  dict_lookup d "seatId" = None \/ dict_lookup d "userId" = None ->
  reserve_seat net (JDict d) w =
  (Ok (json_response 400 (message "Seat ID and User ID are required.")), w)
  /\
  cancel_seat net (JDict d) w =
  (Ok (json_response 400 (message "Seat ID and User ID are required.")), w).
Proof.
  intros H.
  assert (E : truthy (py_get d "seatId") && truthy (py_get d "userId") = false).
  { destruct H as [H|H]; rewrite (truthy_missing _ _ H);
      [reflexivity | apply andb_false_r]. }
  split; [now apply reserve_seat_invalid | now apply cancel_seat_invalid].
Qed.

(** C9. A reserve or cancel request whose [seatId] or [userId] is there
    and is the empty string is answered like one without the field: 400
    with "Seat ID and User ID are required.", no call to the store and the
    world as it was. *)
Theorem empty_field_rejected (net : option failure) (d : dict) (w : world) :
  dict_lookup d "seatId" = Some (JStr EmptyString)
  \/ dict_lookup d "userId" = Some (JStr EmptyString) ->
  reserve_seat net (JDict d) w =
  (Ok (json_response 400 (message "Seat ID and User ID are required.")), w)
  /\
  cancel_seat net (JDict d) w =
  (Ok (json_response 400 (message "Seat ID and User ID are required.")), w).
Proof.
  intros H.
  assert (E : truthy (py_get d "seatId") && truthy (py_get d "userId") = false).
  { unfold py_get. destruct H as [H|H]; rewrite H;
      [reflexivity | apply andb_false_r]. }
  split; [now apply reserve_seat_invalid | now apply cancel_seat_invalid].
Qed.

(** *** What a handler can do to the table *)

Lemma truthy_str (s : string) : truthy (JStr s) = true -> s <> EmptyString.
Proof. simpl. intros H E. subst. discriminate. Qed.

(** On a JSON object [reserve_seat] returns; the table is the one before
    unless a record was added for a seat that had none. *)
Lemma reserve_seat_effect (net : option failure) (d : dict) (w : world) :
  exists r w',
    reserve_seat net (JDict d) w = (Ok r, w') /\
    (table w' = table w \/
     exists seat user,
       py_get d "seatId" = JStr seat /\ py_get d "userId" = JStr user /\
       lookup_item (table w) seat = None /\
       table w' = table w ++ [reservation seat user] /\
       r = json_response 200
             (message ("Seat " ++ seat ++ " reserved successfully.")%string)).
Proof.
  destruct (truthy (py_get d "seatId") && truthy (py_get d "userId")) eqn:Hv.
  2: { rewrite reserve_seat_invalid by assumption. eauto. }
  apply andb_true_iff in Hv. destruct Hv as [Hs Hu].
  destruct (py_get d "seatId") as [| | | |seat| |] eqn:Es;
    destruct (py_get d "userId") as [| | | |user| |] eqn:Eu;
    destruct net as [[code|]|];
    try discriminate;
    try (unfold reserve_seat, get, bind, ret; rewrite Es, Eu, Hs, Hu;
         eexists _, _; split; [reflexivity | left; reflexivity]).
  rewrite reserve_seat_strings with (seat := seat) (user := user);
    auto using truthy_str.
  destruct (lookup_item (table w) seat) eqn:E.
  - eexists _, _. split; [reflexivity | left; reflexivity].
  - eexists _, _. split; [reflexivity | right].
    exists seat, user. repeat split; auto.
Qed.

(** The same for [cancel_seat]: the table is the one before unless the
    record of a seat was removed at the request of its owner. *)
Lemma cancel_seat_effect (net : option failure) (d : dict) (w : world) :
  exists r w',
    cancel_seat net (JDict d) w = (Ok r, w') /\
    (table w' = table w \/
     exists seat user,
       py_get d "seatId" = JStr seat /\ py_get d "userId" = JStr user /\
       owned_by (table w) seat user /\
       table w' = remove_key seat (table w) /\
       r = json_response 200
             (message ("Reservation for seat " ++ seat ++ " canceled.")%string)).
Proof.
  destruct (truthy (py_get d "seatId") && truthy (py_get d "userId")) eqn:Hv.
  2: { rewrite cancel_seat_invalid by assumption. eauto. }
  apply andb_true_iff in Hv. destruct Hv as [Hs Hu].
  destruct (py_get d "seatId") as [| | | |seat| |] eqn:Es;
    destruct (py_get d "userId") as [| | | |user| |] eqn:Eu;
    destruct net as [[code|]|];
    try discriminate;
    try (unfold cancel_seat, get, bind, ret; rewrite Es, Eu, Hs, Hu;
         eexists _, _; split; [reflexivity | left; reflexivity]).
  rewrite cancel_seat_strings with (seat := seat) (user := user);
    auto using truthy_str.
  destruct (eval_condition _ _) eqn:E.
  - apply eval_condition_owned in E.
    eexists _, _. split; [reflexivity | right].
    exists seat, user. repeat split; auto.
  - eexists _, _. split; [reflexivity | left; reflexivity].
Qed.

(** *** The router *)

Lemma py_eq_str_true (v : json) (s : string) :
  py_eq_str v s = true <-> v = JStr s.
Proof.
  destruct v; simpl; try (split; discriminate).
  rewrite String.eqb_eq. split; congruence.
Qed.

Lemma route_test (event : dict) (method path : string) :
  py_eq_str (py_get event "httpMethod") method
  && py_eq_str (py_get event "path") path = true
  <-> route_is event method path.
Proof.
  unfold route_is. now rewrite andb_true_iff, !py_eq_str_true.
Qed.

Lemma route_test_false (event : dict) (method path : string) :
  ~ route_is event method path ->
  py_eq_str (py_get event "httpMethod") method
  && py_eq_str (py_get event "path") path = false.
Proof.
  intros H. apply not_true_is_false. intros E. apply H. now apply route_test.
Qed.

Lemma dispatch_get (net : option failure) (event : dict) :
  route_is event "GET" "/seats" -> dispatch net event = get_seats net.
Proof.
  intros H. apply route_test in H. unfold dispatch. now rewrite H.
Qed.

Lemma dispatch_reserve (net : option failure) (event : dict) :
  route_is event "POST" "/reserve" ->
  dispatch net event = (data <- loads (py_get event "body") ;; reserve_seat net data).
Proof.
  intros [Hm Hp]. unfold dispatch. rewrite Hm, Hp. reflexivity.
Qed.

Lemma dispatch_cancel (net : option failure) (event : dict) :
  route_is event "POST" "/cancel" ->
  dispatch net event = (data <- loads (py_get event "body") ;; cancel_seat net data).
Proof.
  intros [Hm Hp]. unfold dispatch. rewrite Hm, Hp. reflexivity.
Qed.

Lemma dispatch_not_found (net : option failure) (event : dict) :
  ~ route_is event "GET" "/seats" ->
  ~ route_is event "POST" "/reserve" ->
  ~ route_is event "POST" "/cancel" ->
  dispatch net event = ret (json_response 404 (message "Not Found")).
Proof.
  intros H1 H2 H3. unfold dispatch.
  now rewrite (route_test_false H1), (route_test_false H2), (route_test_false H3).
Qed.

Lemma handlers_catch (A : Type) (m : M A) (h : exn -> M A) (w : world) :
  try_except m h w =
  match m w with
  | (Ok a, w') => (Ok a, w')
  | (Raise e, w') => h e w'
  end.
Proof. reflexivity. Qed.

Lemma route_cases (event : dict) :
  route_is event "GET" "/seats" \/ route_is event "POST" "/reserve" \/
  route_is event "POST" "/cancel" \/
  (~ route_is event "GET" "/seats" /\ ~ route_is event "POST" "/reserve" /\
   ~ route_is event "POST" "/cancel").
Proof.
  assert (dec : forall m p, route_is event m p \/ ~ route_is event m p).
  { intros m p. rewrite <- route_test. destruct (_ && _); [now left | now right]. }
  destruct (dec "GET" "/seats"); [tauto|].
  destruct (dec "POST" "/reserve"); [tauto|].
  destruct (dec "POST" "/cancel"); tauto.
Qed.

(** C7. A request whose method and path are none of [GET /seats],
    [POST /reserve], [POST /cancel]: [handle_request] answers 404 with the
    body [{"message": "Not Found"}] and leaves the world as it was, the
    table untouched and no call made. *)
Theorem unknown_route_not_found (net : option failure) (event : dict) (w : world) :
  ~ route_is event "GET" "/seats" ->
  ~ route_is event "POST" "/reserve" ->
  ~ route_is event "POST" "/cancel" ->
  handle_request net event w =
  (Ok (json_response 404 (message "Not Found")), w).
Proof.
  intros H1 H2 H3. unfold handle_request, try_except.
  now rewrite dispatch_not_found.
Qed.

(** C8. When dispatch or a handler raises an exception that no handler
    catches, [handle_request] does not raise: it prints the exception and
    returns 500 with the body [{"message": "An internal error
    occurred."}], which is the same whatever the exception. *)
Theorem uncaught_exception_is_500
    (net : option failure) (event : dict) (w w1 : world) (e : exn) :
  dispatch net event w = (Raise e, w1) ->
  handle_request net event w =
  (Ok (json_response 500 (message "An internal error occurred.")),
   printed "Error handling request: " e w1).
Proof.
  intros H. unfold handle_request, try_except. rewrite H. reflexivity.
Qed.

(** C10. A [POST /reserve] or [POST /cancel] whose body is absent
    ([event.get('body')] is [None]) or is not valid JSON: the failure of
    [json.loads] reaches the handler of [handle_request], the answer is
    500 with "An internal error occurred." and not the 400 of the
    validation, and no call to the store is made. *)
Theorem undecodable_body_is_500 (net : option failure) (event : dict) (w : world) :
  route_is event "POST" "/reserve" \/ route_is event "POST" "/cancel" ->
  py_get event "body" = JNull
  \/ (exists doc e, py_get event "body" = JStr doc /\ json_loads doc = Raise e) ->
  exists e,
    handle_request net event w =
    (Ok (json_response 500 (message "An internal error occurred.")),
     printed "Error handling request: " e w).
Proof.
  intros Hroute Hbody.
  assert (Hloads : exists e, loads (py_get event "body") w = (Raise e, w)).
  { destruct Hbody as [-> | (doc & e & -> & E)].
    - eexists. reflexivity.
    - exists e. unfold loads, lift. now rewrite E. }
  destruct Hloads as (e & Hloads). exists e.
  unfold handle_request, try_except.
  destruct Hroute as [H|H];
    [rewrite (dispatch_reserve net H) | rewrite (dispatch_cancel net H)];
    unfold bind; now rewrite Hloads.
Qed.

(** *** One request *)

(** Whatever the request, [handle_request] returns, and the table is the
    one before unless a reserve request added the record of a free seat or
    a cancel request of the owner removed the record of a seat. *)
Lemma handle_request_effect (net : option failure) (event : dict) (w : world) :
  exists r w',
    handle_request net event w = (Ok r, w') /\
    (table w' = table w
     \/
     (exists seat user,
        reserve_request event seat user /\
        lookup_item (table w) seat = None /\
        table w' = table w ++ [reservation seat user] /\
        r = json_response 200
              (message ("Seat " ++ seat ++ " reserved successfully.")%string))
     \/
     (exists seat user,
        cancel_request event seat user /\
        owned_by (table w) seat user /\
        table w' = remove_key seat (table w) /\
        r = json_response 200
              (message ("Reservation for seat " ++ seat ++ " canceled.")%string))).
Proof.
  unfold handle_request. rewrite handlers_catch.
  destruct (route_cases event) as [H|[H|[H|(H1 & H2 & H3)]]].
  - rewrite (dispatch_get net H).
    destruct (get_seats_returns net w) as (r & w' & -> & Ht). eauto.
  - rewrite (dispatch_reserve net H). unfold bind.
    destruct (py_get event "body") as [| | | |doc| |] eqn:Eb;
      try (eexists _, _; split; [reflexivity | left; reflexivity]).
    unfold loads, lift.
    destruct (json_loads doc) as [[| | | | | |d]|e] eqn:El;
      try (eexists _, _; split; [reflexivity | left; reflexivity]).
    destruct (reserve_seat_effect net d w)
      as (r & w' & -> & [Ht|(seat & user & Hs & Hu & Hfree & Ht & ->)]).
    + eauto.
    + eexists _, _. split; [reflexivity | right; left].
      exists seat, user. repeat split; try assumption; try apply H.
      exists doc, d. auto.
  - rewrite (dispatch_cancel net H). unfold bind.
    destruct (py_get event "body") as [| | | |doc| |] eqn:Eb;
      try (eexists _, _; split; [reflexivity | left; reflexivity]).
    unfold loads, lift.
    destruct (json_loads doc) as [[| | | | | |d]|e] eqn:El;
      try (eexists _, _; split; [reflexivity | left; reflexivity]).
    destruct (cancel_seat_effect net d w)
      as (r & w' & -> & [Ht|(seat & user & Hs & Hu & Hown & Ht & ->)]).
    + eauto.
    + eexists _, _. split; [reflexivity | right; right].
      exists seat, user. repeat split; try assumption; try apply H.
      exists doc, d. auto.
  - rewrite (dispatch_not_found net H1 H2 H3).
    eexists _, _. split; [reflexivity | left; reflexivity].
Qed.

Lemma handle_request_returns (net : option failure) (event : dict) (w : world) :
  exists r w', handle_request net event w = (Ok r, w').
Proof.
  destruct (handle_request_effect net event w) as (r & w' & H & _). eauto.
Qed.

(** C3. Every request (list, reserve, cancel, unmatched route) keeps the
    table one record to a seat.  A record appears only through a reserve
    request answered 200 for a seat that had none, and it is the record
    [{seatId, reservedBy: userId}] of that request; a record disappears
    only through a cancel request answered 200 whose [userId] is the
    [reservedBy] of the record; and a record that is there before and
    after a request is the same record. *)
Theorem reservation_lifecycle
    (net : option failure) (event : dict) (w w' : world) (r : res response) :
  handle_request net event w = (r, w') ->
  (table_ok (table w) -> table_ok (table w'))
  /\
  (forall k it',
     lookup_item (table w) k = None -> lookup_item (table w') k = Some it' ->
     exists user,
       reserve_request event k user /\ it' = reservation k user /\
       r = Ok (json_response 200
                 (message ("Seat " ++ k ++ " reserved successfully.")%string)))
  /\
  (forall k it,
     lookup_item (table w) k = Some it -> lookup_item (table w') k = None ->
     exists user,
       cancel_request event k user /\
       dict_lookup it "reservedBy" = Some (AV_S user) /\
       r = Ok (json_response 200
                 (message ("Reservation for seat " ++ k ++ " canceled.")%string)))
  /\
  (forall k it it',
     lookup_item (table w) k = Some it -> lookup_item (table w') k = Some it' ->
     it' = it).
Proof.
  intros Hrun.
  destruct (handle_request_effect net event w) as (r0 & w0 & E & Heff).
  rewrite E in Hrun. injection Hrun as <- <-.
  destruct Heff as [Ht | [(seat & user & Hreq & Hfree & Ht & ->)
                         | (seat & user & Hreq & Hown & Ht & ->)]];
    rewrite Ht.
  - split; [|split; [|split]]; intros; try congruence; auto.
  - split; [|split; [|split]].
    + intros Hok. now apply table_ok_app.
    + intros k it' Hnone. rewrite lookup_after_append by assumption.
      destruct (String.eqb_spec seat k) as [<-|Hne]; [|congruence].
      intros [= <-]. exists user. split; [assumption|]. split; reflexivity.
    + intros k it Hsome. rewrite lookup_after_append by assumption.
      destruct (String.eqb_spec seat k); congruence.
    + intros k it it' Hsome. rewrite lookup_after_append by assumption.
      destruct (String.eqb_spec seat k); congruence.
  - split; [|split; [|split]].
    + intros Hok. now apply table_ok_remove.
    + intros k it' Hnone. rewrite lookup_after_remove.
      destruct (String.eqb_spec seat k); congruence.
    + intros k it Hsome. rewrite lookup_after_remove.
      destruct (String.eqb_spec seat k) as [<-|Hne]; [|congruence].
      intros _. exists user. destruct Hown as (it0 & Hit0 & Hby).
      split; [assumption|]. split; [congruence | reflexivity].
    + intros k it it' Hsome. rewrite lookup_after_remove.
      destruct (String.eqb_spec seat k); congruence.
Qed.

(** X7. The exceptions that get as far as the [except] of
    [handle_request] come from [json.loads] and from [data.get] on a body
    that is not a JSON object, on the routes [POST /reserve] and
    [POST /cancel] only; the world is untouched by then, the store not
    called. *)
Lemma dispatch_raises
    (net : option failure) (event : dict) (w w1 : world) (e : exn) :
  dispatch net event w = (Raise e, w1) ->
  w1 = w /\
  (route_is event "POST" "/reserve" \/ route_is event "POST" "/cancel") /\
  (e = TypeError (type_name (py_get event "body")) \/
   exists doc,
     py_get event "body" = JStr doc /\
     (json_loads doc = Raise e \/
      exists data,
        json_loads doc = Ok data /\ e = AttributeError (type_name data) "get")).
Proof.
  destruct (route_cases event) as [H|[H|[H|(H1 & H2 & H3)]]].
  - rewrite (dispatch_get net H).
    destruct (get_seats_returns net w) as (r & w' & -> & _). discriminate.
  - rewrite (dispatch_reserve net H). unfold bind.
    destruct (py_get event "body") as [| | | |doc| |] eqn:Eb;
      try (intros [= <- <-]; auto).
    unfold loads, lift.
    destruct (json_loads doc) as [data|e0] eqn:El.
    + destruct data as [| | | | | |d];
        try (intros [= <- <-]; repeat split; eauto 8).
      destruct (reserve_seat_effect net d w) as (r & w' & -> & _). discriminate.
    + intros [= <- <-]. repeat split; eauto 8.
  - rewrite (dispatch_cancel net H). unfold bind.
    destruct (py_get event "body") as [| | | |doc| |] eqn:Eb;
      try (intros [= <- <-]; auto).
    unfold loads, lift.
    destruct (json_loads doc) as [data|e0] eqn:El.
    + destruct data as [| | | | | |d];
        try (intros [= <- <-]; repeat split; eauto 8).
      destruct (cancel_seat_effect net d w) as (r & w' & -> & _). discriminate.
    + intros [= <- <-]. repeat split; eauto 8.
  - rewrite (dispatch_not_found net H1 H2 H3). discriminate.
Qed.

(** *** Requests that reach a handler *)

Lemma handle_request_get (net : option failure) (event : dict) (w : world) :
  route_is event "GET" "/seats" ->
  handle_request net event w = get_seats net w.
Proof.
  intros H. unfold handle_request. rewrite handlers_catch, (dispatch_get net H).
  now destruct (get_seats_returns net w) as (r & w' & -> & _).
Qed.

Lemma handle_request_reserve
    (net : option failure) (event : dict) (doc : string) (d : dict) (w : world) :
  route_is event "POST" "/reserve" ->
  py_get event "body" = JStr doc -> json_loads doc = Ok (JDict d) ->
  handle_request net event w = reserve_seat net (JDict d) w.
Proof.
  intros H Hb Hd. unfold handle_request.
  rewrite handlers_catch, (dispatch_reserve net H).
  unfold bind, loads, lift. rewrite Hb, Hd.
  now destruct (reserve_seat_effect net d w) as (r & w' & -> & _).
Qed.

Lemma handle_request_cancel
    (net : option failure) (event : dict) (doc : string) (d : dict) (w : world) :
  route_is event "POST" "/cancel" ->
  py_get event "body" = JStr doc -> json_loads doc = Ok (JDict d) ->
  handle_request net event w = cancel_seat net (JDict d) w.
Proof.
  intros H Hb Hd. unfold handle_request.
  rewrite handlers_catch, (dispatch_cancel net H).
  unfold bind, loads, lift. rewrite Hb, Hd.
  now destruct (cancel_seat_effect net d w) as (r & w' & -> & _).
Qed.

Lemma request_route (method path : string) (body : json) :
  route_is (request method path body) method path.
Proof.
  split; reflexivity.
Qed.

Lemma removed_seat_not_answered (t : Table) (k : string) :
  lookup_item (rev (scan_answer (remove_key k t))) k = None.
Proof.
  apply key_not_in_lookup. intros Hin. apply in_map_iff in Hin.
  destruct Hin as (it & Hk & Hin).
  apply in_rev, scan_answer_in, filter_In in Hin. destruct Hin as [_ Hno].
  apply has_key_item_key in Hk. rewrite Hk in Hno. discriminate.
Qed.

(** C4, as amended.  Round trip, the calls to the store going through,
    from a table of well-formed records with none for the seat, the
    answer to the scan of the first listing reaching the new record: the
    reserve request is answered 200; the listing that follows is answered
    200 and has the entry [{reserved_by: user}] for the seat; the cancel
    request of the same user is answered 200; and the listing after that
    is answered 200 and has no entry for the seat.  The claim speaks of
    seat [A1] and user [u1]. *)
Theorem reserve_list_cancel_list
    (seat user doc : string) (d : dict) (w : world) :
  seat <> EmptyString -> user <> EmptyString ->
  json_loads doc = Ok (JDict d) ->
  py_get d "seatId" = JStr seat -> py_get d "userId" = JStr user ->
  lookup_item (table w) seat = None ->
  Forall (fun it => well_formed it = true) (table w) ->
  length (table w) < answer_size (table w ++ [reservation seat user]) ->
  exists w1 seats w2 w3 seats' w4,
    handle_request None (request "POST" "/reserve" (JStr doc)) w =
    (Ok (json_response 200
           (message ("Seat " ++ seat ++ " reserved successfully.")%string)), w1)
    /\
    handle_request None (request "GET" "/seats" JNull) w1 =
    (Ok (json_response 200 (JDict seats)), w2)
    /\
    dict_lookup seats seat = Some (seat_entry user)
    /\
    handle_request None (request "POST" "/cancel" (JStr doc)) w2 =
    (Ok (json_response 200
           (message ("Reservation for seat " ++ seat ++ " canceled.")%string)), w3)
    /\
    handle_request None (request "GET" "/seats" JNull) w3 =
    (Ok (json_response 200 (JDict seats')), w4)
    /\
    dict_lookup seats' seat = None.
Proof.
  intros Hseat Huser Hdoc Hs Hu Hfree Hwf Hreach.
  set (w1 := set_table (table w ++ [reservation seat user])
               (called (reserve_call (JStr seat) (JStr user)) w)).
  assert (Hwf1 : Forall (fun it => well_formed it = true) (table w1)).
  { simpl. apply Forall_app. split; [assumption|]. now constructor. }
  assert (Hall : scan_answer (table w1) = table w1).
  { apply scan_answer_whole. simpl. rewrite length_app. simpl. lia. }
  destruct (get_seats_listing w1 (scan_answer_forall Hwf1))
    as (seats & Hget & _ & Hlook).
  set (w2 := called Call_scan w1) in *.
  set (w3 := set_table (remove_key seat (table w2))
               (called (cancel_call (JStr seat) (JStr user)) w2)).
  assert (Hwf3 : Forall (fun it => well_formed it = true) (table w3)).
  { simpl. now apply remove_key_well. }
  destruct (get_seats_listing w3 (scan_answer_forall Hwf3))
    as (seats' & Hget' & _ & Hlook').
  exists w1, seats, w2, w3, seats', (called Call_scan w3).
  split; [|split; [|split; [|split; [|split]]]].
  - rewrite handle_request_reserve with (doc := doc) (d := d);
      auto using request_route.
    rewrite reserve_seat_strings with (seat := seat) (user := user) by assumption.
    now rewrite Hfree.
  - rewrite handle_request_get by apply request_route. exact Hget.
  - rewrite Hlook, Hall. simpl table. rewrite rev_app_distr. simpl.
    unfold lookup_item. simpl. rewrite has_key_reservation, String.eqb_refl.
    reflexivity.
  - rewrite handle_request_cancel with (doc := doc) (d := d);
      auto using request_route.
    rewrite cancel_seat_strings with (seat := seat) (user := user) by assumption.
    replace (eval_condition _ _) with true; [reflexivity|].
    symmetry. apply eval_condition_owned. exists (reservation seat user).
    split; [|reflexivity]. simpl table.
    rewrite lookup_after_append by assumption. now rewrite String.eqb_refl.
  - rewrite handle_request_get by apply request_route. exact Hget'.
  - rewrite Hlook'. simpl table. now rewrite removed_seat_not_answered.
Qed.

(** *** The worlds the handler brings about *)

(** Starting with an empty table, the handler keeps the table one record
    to a seat and every record well formed. *)
Lemma reachable_table (w : world) :
  reachable w ->
  table_ok (table w) /\ Forall (fun it => well_formed it = true) (table w).
Proof.
  induction 1 as [|w w' net event r Hreach [Hok Hwf] Hstep].
  - split; [split|]; constructor.
  - destruct (handle_request_effect net event w) as (r0 & w0 & E & Heff).
    rewrite E in Hstep. injection Hstep as <- <-.
    destruct Heff as [Ht | [(seat & user & _ & Hfree & Ht & _)
                           | (seat & user & _ & _ & Ht & _)]];
      rewrite Ht.
    + now split.
    + split; [now apply table_ok_app|].
      apply Forall_app. split; [assumption|]. now constructor.
    + split; [now apply table_ok_remove | now apply remove_key_well].
Qed.

(** * Further properties of the handlers *)

(** *** The whole of [reserve_seat] and [cancel_seat] on a JSON object *)

Lemma reserve_seat_outcome (net : option failure) (d : dict) (w : world) :
  reserve_seat net (JDict d) w =
  if truthy (py_get d "seatId") && truthy (py_get d "userId") then
    match call_error net [py_get d "seatId"; py_get d "userId"] with
    | Some e =>
        (Ok (json_response 500 (message "An error occurred during reservation.")),
         printed "Error reserving seat: " e
           (called (reserve_call (py_get d "seatId") (py_get d "userId")) w))
    | None =>
        match lookup_item (table w) (py_str (py_get d "seatId")) with
        | None =>
            (Ok (json_response 200
                   (message ("Seat " ++ py_str (py_get d "seatId")
                             ++ " reserved successfully.")%string)),
             set_table
               (table w ++ [reservation (py_str (py_get d "seatId"))
                                        (py_str (py_get d "userId"))])
               (called (reserve_call (py_get d "seatId") (py_get d "userId")) w))
        | Some _ =>
            (Ok (json_response 409
                   (message ("Seat " ++ py_str (py_get d "seatId")
                             ++ " is already reserved.")%string)),
             called (reserve_call (py_get d "seatId") (py_get d "userId")) w)
        end
    end
  else
    (Ok (json_response 400 (message "Seat ID and User ID are required.")), w).
Proof.
  destruct (truthy (py_get d "seatId") && truthy (py_get d "userId")) eqn:Hv.
  2: { now apply reserve_seat_invalid. }
  apply andb_true_iff in Hv. destruct Hv as [Hs Hu].
  destruct (py_get d "seatId") as [| | | |seat| |] eqn:Es;
    destruct (py_get d "userId") as [| | | |user| |] eqn:Eu;
    destruct net as [[code|]|];
    try discriminate;
    try (unfold reserve_seat, get, bind, ret; rewrite Es, Eu, Hs, Hu;
         reflexivity).
  rewrite reserve_seat_strings with (seat := seat) (user := user);
    auto using truthy_str.
Qed.

Lemma cancel_seat_outcome (net : option failure) (d : dict) (w : world) :
  cancel_seat net (JDict d) w =
  if truthy (py_get d "seatId") && truthy (py_get d "userId") then
    match call_error net [py_get d "seatId"; py_get d "userId"] with
    | Some e =>
        (Ok (json_response 500 (message "An error occurred while canceling.")),
         printed "Error canceling reservation: " e
           (called (cancel_call (py_get d "seatId") (py_get d "userId")) w))
    | None =>
        if eval_condition
             (cond_equals_S "reservedBy" (py_str (py_get d "userId")))
             (lookup_item (table w) (py_str (py_get d "seatId")))
        then
          (Ok (json_response 200
                 (message ("Reservation for seat " ++ py_str (py_get d "seatId")
                           ++ " canceled.")%string)),
           set_table (remove_key (py_str (py_get d "seatId")) (table w))
             (called (cancel_call (py_get d "seatId") (py_get d "userId")) w))
        else
          (Ok (json_response 400
                 (message "You cannot cancel this reservation as it does not belong to you.")),
           called (cancel_call (py_get d "seatId") (py_get d "userId")) w)
    end
  else
    (Ok (json_response 400 (message "Seat ID and User ID are required.")), w).
Proof.
  destruct (truthy (py_get d "seatId") && truthy (py_get d "userId")) eqn:Hv.
  2: { now apply cancel_seat_invalid. }
  apply andb_true_iff in Hv. destruct Hv as [Hs Hu].
  destruct (py_get d "seatId") as [| | | |seat| |] eqn:Es;
    destruct (py_get d "userId") as [| | | |user| |] eqn:Eu;
    destruct net as [[code|]|];
    try discriminate;
    try (unfold cancel_seat, get, bind, ret; rewrite Es, Eu, Hs, Hu;
         reflexivity).
  rewrite cancel_seat_strings with (seat := seat) (user := user);
    auto using truthy_str.
Qed.

(** *** The whole of [get_seats] and of [handle_request] *)

Lemma get_seats_outcome (net : option failure) (w : world) :
  (exists seats,
     get_seats net w =
     (Ok (json_response 200 (JDict seats)), called Call_scan w))
  \/
  (exists e,
     get_seats net w =
     (Ok (json_response 500 (message "Failed to retrieve seats.")),
      printed "Error getting seats: " e (called Call_scan w))).
Proof.
  destruct net as [f|].
  - right. exists (failure_exn f). apply get_seats_failed.
  - unfold get_seats, try_except, bind, scan, record_call, transport, ret, get_table.
    simpl.
    pose proof (seats_of_world (scan_answer (table w)) []
                  (World (table w) (calls w ++ [Call_scan]) (stdout w))) as H.
    destruct (seats_of _ _ _) as [[seats|e] w']; simpl in H; subst w'.
    + left. now exists seats.
    + right. now exists e.
Qed.

(** The five ways of a request: the listing, a reserve or a cancel with
    a JSON object, a body that stops [handle_request] short, and no
    route. *)
Lemma handle_request_cases (net : option failure) (event : dict) (w : world) :
  (route_is event "GET" "/seats" /\
   handle_request net event w = get_seats net w)
  \/
  (route_is event "POST" "/reserve" /\
   exists d, handle_request net event w = reserve_seat net (JDict d) w)
  \/
  (route_is event "POST" "/cancel" /\
   exists d, handle_request net event w = cancel_seat net (JDict d) w)
  \/
  ((route_is event "POST" "/reserve" \/ route_is event "POST" "/cancel") /\
   exists e,
     handle_request net event w =
     (Ok (json_response 500 (message "An internal error occurred.")),
      printed "Error handling request: " e w))
  \/
  (~ route_is event "GET" "/seats" /\ ~ route_is event "POST" "/reserve" /\
   ~ route_is event "POST" "/cancel" /\
   handle_request net event w = (Ok (json_response 404 (message "Not Found")), w)).
Proof.
  destruct (route_cases event) as [H|[H|[H|(H1 & H2 & H3)]]].
  - left. split; [assumption | now apply handle_request_get].
  - destruct (handle_request net event w) as [r0 w0] eqn:E.
    pose proof E as E'. unfold handle_request in E'.
    rewrite handlers_catch, (dispatch_reserve net H) in E'.
    unfold bind, loads, lift in E'.
    destruct (py_get event "body") as [| | | |doc| |] eqn:Eb;
      try (injection E' as <- <-; right; right; right; left;
           split; [now left|]; eexists; reflexivity).
    destruct (json_loads doc) as [[| | | | | |d]|e] eqn:El;
      try (injection E' as <- <-; right; right; right; left;
           split; [now left|]; eexists; reflexivity).
    right; left. split; [assumption|]. exists d.
    rewrite <- E. now apply handle_request_reserve with (doc := doc).
  - destruct (handle_request net event w) as [r0 w0] eqn:E.
    pose proof E as E'. unfold handle_request in E'.
    rewrite handlers_catch, (dispatch_cancel net H) in E'.
    unfold bind, loads, lift in E'.
    destruct (py_get event "body") as [| | | |doc| |] eqn:Eb;
      try (injection E' as <- <-; right; right; right; left;
           split; [now right|]; eexists; reflexivity).
    destruct (json_loads doc) as [[| | | | | |d]|e] eqn:El;
      try (injection E' as <- <-; right; right; right; left;
           split; [now right|]; eexists; reflexivity).
    right; right; left. split; [assumption|]. exists d.
    rewrite <- E. now apply handle_request_cancel with (doc := doc).
  - right; right; right; right. repeat split; try assumption.
    unfold handle_request. rewrite handlers_catch.
    now rewrite (dispatch_not_found net H1 H2 H3).
Qed.

(** *** Failures of the store and parameters the client refuses *)

Lemma call_error_refused (net : option failure) (seat user : json) :
  is_str seat && is_str user = false ->
  call_error net [seat; user] = Some ParamValidationError.
Proof.
  intros H. unfold call_error. simpl. rewrite andb_true_r. now rewrite H.
Qed.

Lemma call_error_none (net : option failure) (seat user : json) :
  call_error net [seat; user] = None ->
  net = None /\ seat = JStr (py_str seat) /\ user = JStr (py_str user).
Proof.
  unfold call_error. simpl.
  destruct seat, user; simpl; try discriminate.
  destruct net; [discriminate | auto].
Qed.

(** X1. When the store or the network fails the call, a reserve request
    with two non-empty strings is answered 500 with "An error occurred
    during reservation.", whether the seat is free or taken; the failure
    is printed and the table is the one before. *)
Theorem reserve_store_failure
    (f : failure) (d : dict) (seat user : string) (w : world) :
  py_get d "seatId" = JStr seat -> seat <> EmptyString ->
  py_get d "userId" = JStr user -> user <> EmptyString ->
  reserve_seat (Some f) (JDict d) w =
  (Ok (json_response 500 (message "An error occurred during reservation.")),
   World (table w)
         (calls w ++ [reserve_call (JStr seat) (JStr user)])
         (stdout w ++ [("Error reserving seat: ", failure_exn f)])).
Proof.
  intros Hs Hs' Hu Hu'. rewrite reserve_seat_outcome, Hs, Hu.
  apply String.eqb_neq in Hs', Hu'. simpl truthy. rewrite Hs', Hu'.
  reflexivity.
Qed.

(** X2. The same for a cancel request: 500 with "An error occurred while
    canceling.", whoever owns the seat; the failure is printed and the
    table is the one before. *)
Theorem cancel_store_failure
    (f : failure) (d : dict) (seat user : string) (w : world) :
  py_get d "seatId" = JStr seat -> seat <> EmptyString ->
  py_get d "userId" = JStr user -> user <> EmptyString ->
  cancel_seat (Some f) (JDict d) w =
  (Ok (json_response 500 (message "An error occurred while canceling.")),
   World (table w)
         (calls w ++ [cancel_call (JStr seat) (JStr user)])
         (stdout w ++ [("Error canceling reservation: ", failure_exn f)])).
Proof.
  intros Hs Hs' Hu Hu'. rewrite cancel_seat_outcome, Hs, Hu.
  apply String.eqb_neq in Hs', Hu'. simpl truthy. rewrite Hs', Hu'.
  reflexivity.
Qed.

(** X3. A [seatId] or [userId] that is truthy without being a string (a
    number, [true], a list or an object that is not empty) passes the
    validation; the client then refuses the parameter, and the handlers
    answer with their own 500, not with 400.  The table is the one
    before. *)
Theorem non_string_field_is_500 (net : option failure) (d : dict) (w : world) :
  truthy (py_get d "seatId") = true -> truthy (py_get d "userId") = true ->
  is_str (py_get d "seatId") && is_str (py_get d "userId") = false ->
  reserve_seat net (JDict d) w =
  (Ok (json_response 500 (message "An error occurred during reservation.")),
   printed "Error reserving seat: " ParamValidationError
     (called (reserve_call (py_get d "seatId") (py_get d "userId")) w))
  /\
  cancel_seat net (JDict d) w =
  (Ok (json_response 500 (message "An error occurred while canceling.")),
   printed "Error canceling reservation: " ParamValidationError
     (called (cancel_call (py_get d "seatId") (py_get d "userId")) w)).
Proof.
  intros Hs Hu Hstr.
  rewrite reserve_seat_outcome, cancel_seat_outcome, Hs, Hu.
  rewrite (call_error_refused net _ _ Hstr). split; reflexivity.
Qed.

(** X4. A [seatId] or [userId] that is falsy, whatever its type ([null],
    [false], [0], [0.0], an empty string, list or object), is taken for a
    missing field: 400 with "Seat ID and User ID are required." and the
    world as it was. *)
Theorem falsy_field_rejected (net : option failure) (d : dict) (w : world) :
  truthy (py_get d "seatId") = false \/ truthy (py_get d "userId") = false ->
  reserve_seat net (JDict d) w =
  (Ok (json_response 400 (message "Seat ID and User ID are required.")), w)
  /\
  cancel_seat net (JDict d) w =
  (Ok (json_response 400 (message "Seat ID and User ID are required.")), w).
Proof.
  intros H.
  assert (E : truthy (py_get d "seatId") && truthy (py_get d "userId") = false).
  { destruct H as [-> | ->]; [reflexivity | apply andb_false_r]. }
  rewrite reserve_seat_outcome, cancel_seat_outcome, E. split; reflexivity.
Qed.

(** X5. With two truthy fields each handler calls the store exactly once,
    [put_item] with the condition [attribute_not_exists(seatId)] for a
    reserve and [delete_item] with the condition on [reservedBy] for a
    cancel, whatever comes of the call. *)
Theorem valid_request_calls_once (net : option failure) (d : dict) (w : world) :
  truthy (py_get d "seatId") = true -> truthy (py_get d "userId") = true ->
  (exists r w',
     reserve_seat net (JDict d) w = (Ok r, w') /\
     calls w' = calls w ++ [reserve_call (py_get d "seatId") (py_get d "userId")])
  /\
  (exists r w',
     cancel_seat net (JDict d) w = (Ok r, w') /\
     calls w' = calls w ++ [cancel_call (py_get d "seatId") (py_get d "userId")]).
Proof.
  intros Hs Hu. rewrite reserve_seat_outcome, cancel_seat_outcome, Hs, Hu.
  simpl andb. split.
  - destruct (call_error _ _); [|destruct (lookup_item _ _)];
      eexists _, _; split; reflexivity.
  - destruct (call_error _ _); [|destruct (eval_condition _ _)];
      eexists _, _; split; reflexivity.
Qed.

(** X6. A body that is valid JSON without being an object (a list, a
    string, a number, [null]): [reserve_seat] and [cancel_seat] raise the
    [AttributeError] of [data.get] themselves, before any validation, and
    [handle_request] turns it into 500 with "An internal error occurred.";
    the store is not called. *)
Theorem non_object_body_is_500 (net : option failure) (data : json) (w : world) :
  (forall d, data <> JDict d) ->
  reserve_seat net data w = (Raise (AttributeError (type_name data) "get"), w)
  /\
  cancel_seat net data w = (Raise (AttributeError (type_name data) "get"), w)
  /\
  forall event doc,
    route_is event "POST" "/reserve" \/ route_is event "POST" "/cancel" ->
    py_get event "body" = JStr doc -> json_loads doc = Ok data ->
    handle_request net event w =
    (Ok (json_response 500 (message "An internal error occurred.")),
     printed "Error handling request: " (AttributeError (type_name data) "get") w).
Proof.
  intros Hobj.
  assert (Hr : reserve_seat net data w
               = (Raise (AttributeError (type_name data) "get"), w)).
  { destruct data; try reflexivity. now destruct (Hobj d). }
  assert (Hc : cancel_seat net data w
               = (Raise (AttributeError (type_name data) "get"), w)).
  { destruct data; try reflexivity. now destruct (Hobj d). }
  split; [exact Hr|]. split; [exact Hc|].
  intros event doc Hroute Hb Hd. unfold handle_request.
  rewrite handlers_catch.
  destruct Hroute as [H|H];
    [rewrite (dispatch_reserve net H) | rewrite (dispatch_cancel net H)];
    unfold bind, loads, lift; rewrite Hb, Hd; [rewrite Hr | rewrite Hc];
    reflexivity.
Qed.

(** *** One request, seen from outside *)

Ltac handler_outcomes :=
  repeat match goal with
  | |- context [truthy ?a && truthy ?b] => destruct (truthy a && truthy b)
  | |- context [call_error ?n ?l] => destruct (call_error n l)
  | |- context [match lookup_item ?t ?k with _ => _ end] =>
      destruct (lookup_item t k)
  | |- context [if eval_condition ?c ?o then _ else _] =>
      destruct (eval_condition c o)
  end.

(** X8. A request makes at most one call to the store, and the call of
    its route: a scan for [GET /seats] (always), a [put_item] for
    [POST /reserve], a [delete_item] for [POST /cancel]; an unmatched
    route makes none. *)
Theorem one_call_per_request (net : option failure) (event : dict) (w : world) :
  exists r w',
    handle_request net event w = (Ok r, w') /\
    ((~ route_is event "GET" "/seats" /\ calls w' = calls w)
     \/
     (route_is event "GET" "/seats" /\ calls w' = calls w ++ [Call_scan])
     \/
     (route_is event "POST" "/reserve" /\
      exists seat user, calls w' = calls w ++ [reserve_call seat user])
     \/
     (route_is event "POST" "/cancel" /\
      exists seat user, calls w' = calls w ++ [cancel_call seat user])).
Proof.
  assert (Hpost : forall p, route_is event "POST" p -> ~ route_is event "GET" "/seats").
  { intros p [Hm _] [Hm' _]. congruence. }
  destruct (handle_request_cases net event w)
    as [(H & ->) | [(H & d & ->) | [(H & d & ->)
       | [(H & e & ->) | (H1 & H2 & H3 & ->)]]]].
  - destruct (get_seats_outcome net w) as [(seats & ->) | (e & ->)];
      eexists _, _; (split; [reflexivity|]); right; left; now split.
  - rewrite reserve_seat_outcome. handler_outcomes;
      eexists _, _; (split; [reflexivity|]);
      first [ left; split; [now apply (Hpost "/reserve") | reflexivity]
            | right; right; left; split; [assumption|];
              eexists _, _; reflexivity ].
  - rewrite cancel_seat_outcome. handler_outcomes;
      eexists _, _; (split; [reflexivity|]);
      first [ left; split; [now apply (Hpost "/cancel") | reflexivity]
            | right; right; right; split; [assumption|];
              eexists _, _; reflexivity ].
  - eexists _, _. split; [reflexivity|]. left. split; [|reflexivity].
    destruct H as [H|H]; [now apply (Hpost "/reserve") | now apply (Hpost "/cancel")].
  - eexists _, _. split; [reflexivity|]. left. now split.
Qed.

(** X9. A request prints exactly when it is answered 500, and then one
    line: every failure turned into a 500 leaves its exception on
    standard output, and nothing else is printed. *)
Theorem printed_iff_500 (net : option failure) (event : dict) (w : world) :
  exists r w',
    handle_request net event w = (Ok r, w') /\
    ((statusCode r = 500%Z /\
      exists prefix e, stdout w' = stdout w ++ [(prefix, e)])
     \/
     (statusCode r <> 500%Z /\ stdout w' = stdout w)).
Proof.
  destruct (handle_request_cases net event w)
    as [(H & ->) | [(H & d & ->) | [(H & d & ->)
       | [(H & e & ->) | (H1 & H2 & H3 & ->)]]]].
  - destruct (get_seats_outcome net w) as [(seats & ->) | (e & ->)];
      eexists _, _; (split; [reflexivity|]);
      first [ left; split; [reflexivity | eexists _, _; reflexivity]
            | right; split; [discriminate | reflexivity] ].
  - rewrite reserve_seat_outcome. handler_outcomes;
      eexists _, _; (split; [reflexivity|]);
      first [ left; split; [reflexivity | eexists _, _; reflexivity]
            | right; split; [discriminate | reflexivity] ].
  - rewrite cancel_seat_outcome. handler_outcomes;
      eexists _, _; (split; [reflexivity|]);
      first [ left; split; [reflexivity | eexists _, _; reflexivity]
            | right; split; [discriminate | reflexivity] ].
  - eexists _, _. split; [reflexivity|]. left.
    split; [reflexivity | eexists _, _; reflexivity].
  - eexists _, _. split; [reflexivity|]. right. split; [discriminate | reflexivity].
Qed.

(** X10. Only a request answered 200 can change the table: after any
    other answer (400, 404, 409, 500) the table is the one before. *)
Theorem failed_request_keeps_table
    (net : option failure) (event : dict) (w : world) :
  exists r w',
    handle_request net event w = (Ok r, w') /\
    (statusCode r <> 200%Z -> table w' = table w).
Proof.
  destruct (handle_request_effect net event w) as (r & w' & E & Heff).
  exists r, w'. split; [exact E|]. intros Hstatus.
  destruct Heff as [Ht | [(seat & user & _ & _ & _ & ->)
                         | (seat & user & _ & _ & _ & ->)]];
    [assumption | now destruct Hstatus | now destruct Hstatus].
Qed.

(** X11. [handle_request] never raises, and the status of its answer is
    one of those of the route: 200 or 500 for [GET /seats]; 200, 400, 409
    or 500 for [POST /reserve]; 200, 400 or 500 for [POST /cancel]; 404
    for anything else. *)
Theorem answer_status_by_route (net : option failure) (event : dict) (w : world) :
  exists r w',
    handle_request net event w = (Ok r, w') /\ In (statusCode r) (statuses event).
Proof.
  destruct (handle_request_cases net event w)
    as [(H & ->) | [(H & d & ->) | [(H & d & ->)
       | [(H & e & ->) | (H1 & H2 & H3 & ->)]]]].
  - unfold statuses. destruct H as [-> ->].
    destruct (get_seats_outcome net w) as [(seats & ->) | (e & ->)];
      eexists _, _; (split; [reflexivity|]); simpl; tauto.
  - unfold statuses. destruct H as [-> ->].
    rewrite reserve_seat_outcome. handler_outcomes;
      eexists _, _; (split; [reflexivity|]); simpl; tauto.
  - unfold statuses. destruct H as [-> ->].
    rewrite cancel_seat_outcome. handler_outcomes;
      eexists _, _; (split; [reflexivity|]); simpl; tauto.
  - eexists _, _. split; [reflexivity|]. unfold statuses.
    destruct H as [[-> ->] | [-> ->]]; simpl; tauto.
  - eexists _, _. split; [reflexivity|]. unfold statuses.
    rewrite (route_test_false H1), (route_test_false H2), (route_test_false H3).
    simpl. tauto.
Qed.

(** *** The order of the listing *)

Lemma dict_set_fresh (A : Type) (d : list (string * A)) (k : string) (v : A) :
  ~ In k (map fst d) -> dict_set d k v = d ++ [(k, v)].
Proof.
  induction d as [|[k0 v0] d IH]; simpl; intros H; [reflexivity|].
  destruct (String.eqb_spec k0 k) as [->|_]; [tauto|].
  f_equal. apply IH. tauto.
Qed.

Lemma seats_of_order (items : list Item) :
  forall (seats : dict) (w : world),
    Forall (fun it => well_formed it = true) items ->
    NoDup (map Some (map fst seats) ++ map item_key items) ->
    exists seats',
      seats_of items seats w = (Ok seats', w) /\
      map Some (map fst seats') = map Some (map fst seats) ++ map item_key items.
Proof.
  induction items as [|it items IH]; intros seats w Hwf Hnd.
  - exists seats. simpl. now rewrite app_nil_r.
  - inversion Hwf as [|? ? Hit Hrest]; subst.
    destruct (well_formed_fields _ Hit) as (seat & user & Hs & Hu).
    assert (Hk : item_key it = Some seat) by (unfold item_key; now rewrite Hs).
    simpl in Hnd. rewrite Hk in Hnd.
    assert (Hfresh : ~ In seat (map fst seats)).
    { intros Hin. apply (NoDup_remove_2 _ _ _ Hnd).
      apply in_or_app. left. now apply in_map. }
    destruct (IH (dict_set seats seat (seat_entry user)) w Hrest)
      as (seats' & Hrun & Horder).
    + rewrite dict_set_fresh by assumption. rewrite !map_app, <- app_assoc. exact Hnd.
    + exists seats'. split.
      * simpl. unfold bind, lift, subscript. rewrite Hs. simpl. rewrite Hu.
        exact Hrun.
      * rewrite Horder, dict_set_fresh by assumption.
        rewrite !map_app, <- app_assoc. simpl. now rewrite Hk.
Qed.

(** X12. The listing keeps the order of the scan: with one well-formed
    record to a seat, the keys of the JSON object [get_seats] encodes are
    the seats of the answer to its scan, each once, in the order of the
    answer; they are the seats of the whole table when the answer holds
    it. *)
Theorem listing_in_scan_order (w : world) :
  table_ok (table w) ->
  Forall (fun it => well_formed it = true) (table w) ->
  exists seats,
    get_seats None w = (Ok (json_response 200 (JDict seats)), called Call_scan w) /\
    map Some (map fst seats) = map item_key (scan_answer (table w)) /\
    (length (table w) <= answer_size (table w) ->
     map Some (map fst seats) = map item_key (table w)).
Proof.
  intros [_ Hnd] Hwf.
  destruct (seats_of_order [] (called Call_scan w) (scan_answer_forall Hwf))
    as (seats & Hrun & Horder).
  { now apply scan_answer_unique. }
  exists seats. split; [now apply get_seats_run|]. split; [exact Horder|].
  intros Hall. now rewrite Horder, (scan_answer_whole _ Hall).
Qed.

(** *** Requests one after the other *)

Lemma owned_by_unique (t : Table) (seat user user' : string) :
  owned_by t seat user -> owned_by t seat user' -> user = user'.
Proof.
  intros (it & Hit & Hby) (it' & Hit' & Hby'). congruence.
Qed.

Lemma owned_after_reserve (t : Table) (seat user : string) :
  lookup_item t seat = None ->
  owned_by (t ++ [reservation seat user]) seat user.
Proof.
  intros Hfree. exists (reservation seat user). split; [|reflexivity].
  rewrite lookup_after_append by assumption. now rewrite String.eqb_refl.
Qed.

(** X13. A seat is reserved once: after a reserve answered 200, a second
    reserve of the same seat, by the same user or by another, is answered
    409, and the seat stays with the first user. *)
Theorem second_reserve_refused
    (d d' : dict) (seat user user' : string) (w : world) :
  py_get d "seatId" = JStr seat -> py_get d' "seatId" = JStr seat ->
  seat <> EmptyString ->
  py_get d "userId" = JStr user -> user <> EmptyString ->
  py_get d' "userId" = JStr user' -> user' <> EmptyString ->
  lookup_item (table w) seat = None ->
  exists w1 w2,
    reserve_seat None (JDict d) w =
    (Ok (json_response 200
           (message ("Seat " ++ seat ++ " reserved successfully.")%string)), w1)
    /\
    reserve_seat None (JDict d') w1 =
    (Ok (json_response 409
           (message ("Seat " ++ seat ++ " is already reserved.")%string)), w2)
    /\
    table w2 = table w1 /\ owned_by (table w2) seat user.
Proof.
  intros Hs Hs' Hseat Hu Huser Hu' Huser' Hfree.
  assert (Hown : owned_by (table w ++ [reservation seat user]) seat user)
    by now apply owned_after_reserve.
  destruct Hown as (it & Hit & Hby).
  eexists _, _. split; [|split; [|split]].
  - rewrite reserve_seat_strings with (seat := seat) (user := user) by assumption.
    rewrite Hfree. reflexivity.
  - rewrite reserve_seat_strings with (seat := seat) (user := user') by assumption.
    simpl table. rewrite Hit. reflexivity.
  - reflexivity.
  - exists it. split; assumption.
Qed.

(** X14. A cancel by someone who is not the owner is answered 400 and
    changes nothing: the owner still holds the seat and can cancel it
    afterwards. *)
Theorem cancel_by_other_then_owner
    (d d' : dict) (seat owner other : string) (w : world) :
  py_get d "seatId" = JStr seat -> py_get d' "seatId" = JStr seat ->
  seat <> EmptyString ->
  py_get d "userId" = JStr other -> other <> EmptyString ->
  py_get d' "userId" = JStr owner -> owner <> EmptyString ->
  owned_by (table w) seat owner -> other <> owner ->
  exists w1 w2,
    cancel_seat None (JDict d) w =
    (Ok (json_response 400
           (message "You cannot cancel this reservation as it does not belong to you.")),
     w1)
    /\
    table w1 = table w
    /\
    cancel_seat None (JDict d') w1 =
    (Ok (json_response 200
           (message ("Reservation for seat " ++ seat ++ " canceled.")%string)), w2)
    /\
    lookup_item (table w2) seat = None.
Proof.
  intros Hs Hs' Hseat Hu Hother Hu' Howner Hown Hne.
  assert (Hno : eval_condition (cond_equals_S "reservedBy" other)
                  (lookup_item (table w) seat) = false).
  { apply not_true_is_false. intros E. apply eval_condition_owned in E.
    apply Hne. eapply owned_by_unique; eassumption. }
  apply eval_condition_owned in Hown.
  eexists _, _. split; [|split; [|split]].
  - rewrite cancel_seat_strings with (seat := seat) (user := other) by assumption.
    rewrite Hno. reflexivity.
  - reflexivity.
  - rewrite cancel_seat_strings with (seat := seat) (user := owner) by assumption.
    simpl table. rewrite Hown. reflexivity.
  - simpl. apply lookup_remove_same.
Qed.

(** X15. A reservation is cancelled once: after a cancel answered 200,
    the same cancel again is answered 400, and the table stays as the
    first cancel left it. *)
Theorem second_cancel_refused (d : dict) (seat user : string) (w : world) :
  py_get d "seatId" = JStr seat -> seat <> EmptyString ->
  py_get d "userId" = JStr user -> user <> EmptyString ->
  owned_by (table w) seat user ->
  exists w1 w2,
    cancel_seat None (JDict d) w =
    (Ok (json_response 200
           (message ("Reservation for seat " ++ seat ++ " canceled.")%string)), w1)
    /\
    cancel_seat None (JDict d) w1 =
    (Ok (json_response 400
           (message "You cannot cancel this reservation as it does not belong to you.")),
     w2)
    /\
    table w2 = table w1.
Proof.
  intros Hs Hseat Hu Huser Hown.
  apply eval_condition_owned in Hown.
  eexists _, _. split; [|split].
  - rewrite cancel_seat_strings with (seat := seat) (user := user) by assumption.
    rewrite Hown. reflexivity.
  - rewrite cancel_seat_strings with (seat := seat) (user := user) by assumption.
    simpl table. rewrite lookup_remove_same. reflexivity.
  - reflexivity.
Qed.

(** X16. A cancelled seat is free again: after the owner's cancel,
    answered 200, a reserve of the seat by any user is answered 200 and
    the seat is that user's. *)
Theorem reserve_after_cancel
    (d d' : dict) (seat owner next : string) (w : world) :
  py_get d "seatId" = JStr seat -> py_get d' "seatId" = JStr seat ->
  seat <> EmptyString ->
  py_get d "userId" = JStr owner -> owner <> EmptyString ->
  py_get d' "userId" = JStr next -> next <> EmptyString ->
  owned_by (table w) seat owner ->
  exists w1 w2,
    cancel_seat None (JDict d) w =
    (Ok (json_response 200
           (message ("Reservation for seat " ++ seat ++ " canceled.")%string)), w1)
    /\
    reserve_seat None (JDict d') w1 =
    (Ok (json_response 200
           (message ("Seat " ++ seat ++ " reserved successfully.")%string)), w2)
    /\
    owned_by (table w2) seat next.
Proof.
  intros Hs Hs' Hseat Hu Howner Hu' Hnext Hown.
  apply eval_condition_owned in Hown.
  eexists _, _. split; [|split].
  - rewrite cancel_seat_strings with (seat := seat) (user := owner) by assumption.
    rewrite Hown. reflexivity.
  - rewrite reserve_seat_strings with (seat := seat) (user := next) by assumption.
    simpl table. rewrite lookup_remove_same. reflexivity.
  - simpl table. apply owned_after_reserve. apply lookup_remove_same.
Qed.

(** *** From an empty table *)

Lemma handle_request_writes
    (net : option failure) (event : dict) (w w' : world) (r : res response) :
  handle_request net event w = (r, w') ->
  table w' = table w
  \/
  (exists seat user,
     seat <> EmptyString /\ user <> EmptyString /\
     lookup_item (table w) seat = None /\
     table w' = table w ++ [reservation seat user])
  \/
  (exists seat, table w' = remove_key seat (table w)).
Proof.
  destruct (handle_request_cases net event w)
    as [(H & ->) | [(H & d & ->) | [(H & d & ->)
       | [(H & e & ->) | (H1 & H2 & H3 & ->)]]]].
  - destruct (get_seats_outcome net w) as [(seats & ->) | (e & ->)];
      intros [= <- <-]; now left.
  - rewrite reserve_seat_outcome.
    destruct (truthy (py_get d "seatId")) eqn:Hs;
      [destruct (truthy (py_get d "userId")) eqn:Hu|];
      simpl andb; try (intros [= <- <-]; now left).
    destruct (call_error _ _) eqn:Ecall; [intros [= <- <-]; now left|].
    destruct (call_error_none _ _ _ Ecall) as (_ & Eseat & Euser).
    destruct (lookup_item _ _) eqn:Efree; intros [= <- <-]; [now left|].
    right; left. exists (py_str (py_get d "seatId")), (py_str (py_get d "userId")).
    rewrite Eseat in Hs. rewrite Euser in Hu.
    repeat split; auto using truthy_str.
  - rewrite cancel_seat_outcome.
    destruct (truthy (py_get d "seatId") && truthy (py_get d "userId"));
      [|intros [= <- <-]; now left].
    destruct (call_error _ _); [intros [= <- <-]; now left|].
    destruct (eval_condition _ _); intros [= <- <-]; [|now left].
    right; right. now eexists.
  - intros [= <- <-]. now left.
  - intros [= <- <-]. now left.
Qed.

Lemma written_well_formed (it : Item) : written it -> well_formed it = true.
Proof. now intros (seat & user & -> & _). Qed.

(** X17. Starting with an empty table, whatever the requests and the
    failures of the store, the table keeps one record to a seat, and every
    record is one [reserve_seat] wrote: a string [seatId] and a string
    [reservedBy], neither empty, and nothing else. *)
Theorem reachable_records (w : world) :
  reachable w -> table_ok (table w) /\ Forall written (table w).
Proof.
  induction 1 as [|w w' net event r Hreach [Hok Hwr] Hstep].
  - split; [split|]; constructor.
  - destruct (handle_request_writes net event w Hstep)
      as [-> | [(seat & user & Hseat & Huser & Hfree & ->) | (seat & ->)]].
    + now split.
    + split; [now apply table_ok_app|].
      apply Forall_app. split; [assumption|].
      constructor; [|constructor]. now exists seat, user.
    + split; [now apply table_ok_remove | now apply remove_key_well].
Qed.

Lemma owned_by_answer (t : Table) (seat user : string) :
  owned_by (scan_answer t) seat user -> owned_by t seat user.
Proof.
  intros (it & Hit & Hby). exists it. split; [|exact Hby].
  now rewrite <- (scan_answer_split t), lookup_item_app, Hit.
Qed.

(** X18. Starting with an empty table, the listing never fails on a
    record: whatever requests came before, [get_seats] with the scan
    going through answers 200.  The JSON object it encodes has exactly the
    seats of the answer to its scan, so every seat it lists is held, by
    the user it lists; and it lists every seat held when the answer holds
    the whole table. *)
Theorem reachable_listing (w : world) :
  reachable w ->
  exists seats,
    get_seats None w = (Ok (json_response 200 (JDict seats)), called Call_scan w) /\
    (forall k v,
       dict_lookup seats k = Some v <->
       exists user, owned_by (scan_answer (table w)) k user /\ v = seat_entry user)
    /\
    (forall k v,
       dict_lookup seats k = Some v ->
       exists user, owned_by (table w) k user /\ v = seat_entry user)
    /\
    (length (table w) <= answer_size (table w) ->
     forall k user,
       owned_by (table w) k user -> dict_lookup seats k = Some (seat_entry user)).
Proof.
  intros Hreach. destruct (reachable_table Hreach) as [[_ Hnd] Hwf].
  destruct (get_seats_entries w Hnd (scan_answer_forall Hwf))
    as (seats & Hrun & _ & Hlook).
  exists seats. split; [exact Hrun|]. split; [exact Hlook|]. split.
  - intros k v Hk. apply Hlook in Hk. destruct Hk as (user & Hown & ->).
    exists user. split; [now apply owned_by_answer | reflexivity].
  - intros Hall k user Hown. apply Hlook. exists user.
    rewrite (scan_answer_whole _ Hall). now split.
Qed.

(** X19. What [get_seats] answers, in terms of the one answer to its
    scan: when the items of the answer are well formed, 200 with the JSON
    object that has, for every seat of the answer, the entry
    [{reserved_by: <its reservedBy>}], and nothing else; when the scan
    fails, or an item of the answer is not well formed, 500 with "Failed
    to retrieve seats.". *)
Theorem get_seats_of_one_answer (w : world) :
  (table_ok (table w) ->
   Forall (fun it => well_formed it = true) (scan_answer (table w)) ->
   exists seats,
     get_seats None w = (Ok (json_response 200 (JDict seats)), called Call_scan w) /\
     NoDup (map fst seats) /\
     forall k v,
       dict_lookup seats k = Some v <->
       exists user, owned_by (scan_answer (table w)) k user /\ v = seat_entry user)
  /\
  (forall f,
     get_seats (Some f) w =
     (Ok (json_response 500 (message "Failed to retrieve seats.")),
      printed "Error getting seats: " (failure_exn f) (called Call_scan w)))
  /\
  (Exists (fun it => well_formed it = false) (scan_answer (table w)) ->
   forall net, exists e,
     get_seats net w =
     (Ok (json_response 500 (message "Failed to retrieve seats.")),
      printed "Error getting seats: " e (called Call_scan w))).
Proof.
  split; [|split].
  - intros [_ Hnd] Hwf. now apply get_seats_entries.
  - intros f. apply get_seats_failed.
  - intros Hex [f|].
    + rewrite get_seats_failed. eauto.
    + now apply get_seats_malformed.
Qed.

End HandlerProperties.

(** * The theorems at work

    Every theorem above is applied once to a concrete request and a
    concrete table, with the sample runtime. *)

Section Examples.

#[local] Existing Instance Sample.runtime.

Lemma reserve_seat_spec_witness :
  reserve_seat None (Sample.data "A1" "u1") Sample.empty =
  (Ok (json_response 200 (message "Seat A1 reserved successfully.")),
   World [reservation "A1" "u1"] [reserve_call (JStr "A1") (JStr "u1")] [])
  /\
  reserve_seat None (Sample.data "A1" "u2") Sample.A1_u1 =
  (Ok (json_response 409 (message "Seat A1 is already reserved.")),
   World [reservation "A1" "u1"] [reserve_call (JStr "A1") (JStr "u2")] []).
Proof.
  split.
  - apply (@reserve_seat_spec Sample.runtime
             [("seatId", JStr "A1"); ("userId", JStr "u1")] "A1" "u1" Sample.empty);
      [reflexivity | discriminate | reflexivity | discriminate | reflexivity].
  - apply (proj2 (@reserve_seat_spec Sample.runtime
             [("seatId", JStr "A1"); ("userId", JStr "u2")] "A1" "u2" Sample.A1_u1
             eq_refl ltac:(discriminate) eq_refl ltac:(discriminate))
           (reservation "A1" "u1")).
    reflexivity.
Defined.

Lemma cancel_seat_spec_witness :
  owned_by (table Sample.A1_u1) "A1" "u1" /\
  exists r w',
    cancel_seat None (Sample.data "A1" "u1") Sample.A1_u1 = (Ok r, w') /\
    statusCode r = 200%Z /\ table w' = [].
Proof.
  assert (Hown : owned_by (table Sample.A1_u1) "A1" "u1").
  { exists (reservation "A1" "u1"). split; reflexivity. }
  split; [exact Hown|].
  destruct (@cancel_seat_spec Sample.runtime
              [("seatId", JStr "A1"); ("userId", JStr "u1")] "A1" "u1" Sample.A1_u1
              eq_refl ltac:(discriminate) eq_refl ltac:(discriminate))
    as (r & w' & Hrun & Hiff & Hyes & _).
  exists r, w'. split; [exact Hrun|].
  destruct (Hyes Hown) as (-> & -> & _). split; reflexivity.
Defined.

Lemma reservation_lifecycle_witness :
  table_ok [] /\
  table_ok [reservation "A1" "u1"] /\
  exists user,
    reserve_request
      (request "POST" "/reserve" (JStr (Sample.document "A1" "u1"))) "A1" user.
Proof.
  assert (Hok : table_ok []) by (split; constructor).
  destruct (@reservation_lifecycle Sample.runtime None
              (request "POST" "/reserve" (JStr (Sample.document "A1" "u1")))
              Sample.empty
              (World [reservation "A1" "u1"]
                     [reserve_call (JStr "A1") (JStr "u1")] [])
              (Ok (json_response 200 (message "Seat A1 reserved successfully.")))
              eq_refl)
    as (Hkeep & Hnew & _ & _).
  split; [exact Hok|]. split; [exact (Hkeep Hok)|].
  destruct (Hnew "A1" (reservation "A1" "u1") eq_refl eq_refl) as (user & Hreq & _).
  exists user. exact Hreq.
Defined.

Lemma reserve_list_cancel_list_witness :
  exists w1 seats w2 w3 seats' w4,
    handle_request None
      (request "POST" "/reserve" (JStr (Sample.document "A1" "u1"))) Sample.empty =
    (Ok (json_response 200 (message "Seat A1 reserved successfully.")), w1)
    /\
    handle_request None (request "GET" "/seats" JNull) w1 =
    (Ok (json_response 200 (JDict seats)), w2)
    /\
    dict_lookup seats "A1" = Some (seat_entry "u1")
    /\
    handle_request None
      (request "POST" "/cancel" (JStr (Sample.document "A1" "u1"))) w2 =
    (Ok (json_response 200 (message "Reservation for seat A1 canceled.")), w3)
    /\
    handle_request None (request "GET" "/seats" JNull) w3 =
    (Ok (json_response 200 (JDict seats')), w4)
    /\
    dict_lookup seats' "A1" = None.
Proof.
  apply (@reserve_list_cancel_list Sample.runtime "A1" "u1"
           (Sample.document "A1" "u1")
           [("seatId", JStr "A1"); ("userId", JStr "u1")] Sample.empty).
  - discriminate.
  - discriminate.
  - reflexivity.
  - reflexivity.
  - reflexivity.
  - reflexivity.
  - constructor.
  - simpl. lia.
Defined.

Lemma round_trip_counterexample :
  lookup_item (table Sample.malformed_B2) "A1" = None /\
  ~ (exists w1 seats w2,
       handle_request None
         (request "POST" "/reserve" (JStr (Sample.document "A1" "u1")))
         Sample.malformed_B2 =
       (Ok (json_response 200 (message "Seat A1 reserved successfully.")), w1)
       /\
       handle_request None (request "GET" "/seats" JNull) w1 =
       (Ok (json_response 200 (JDict seats)), w2)
       /\
       dict_lookup seats "A1" = Some (seat_entry "u1")).
Proof.
  split; [reflexivity|].
  intros (w1 & seats & w2 & Hreserve & Hlist & _).
  vm_compute in Hreserve. injection Hreserve as <-.
  unfold json_response in Hlist. vm_compute in Hlist.
  discriminate Hlist.
Qed.

Lemma get_seats_lists_one_answer_witness :
  get_seats None Sample.three_seats =
  (Ok (json_response 200
         (JDict [("A1", seat_entry "u1"); ("B2", seat_entry "u2")])),
   called Call_scan Sample.three_seats)
  /\
  exists seats seat user,
    get_seats None Sample.three_seats =
    (Ok (json_response 200 (JDict seats)), called Call_scan Sample.three_seats) /\
    owned_by (table Sample.three_seats) seat user /\
    dict_lookup seats seat = None.
Proof.
  split; [reflexivity|].
  apply (@get_seats_lists_one_answer Sample.runtime Sample.three_seats).
  - split; [repeat constructor|].
    constructor; [intros [H|[H|[]]]; discriminate H|].
    constructor; [intros [H|[]]; discriminate H|].
    constructor; [intros [] | constructor].
  - repeat constructor.
  - simpl. lia.
Defined.

Lemma missing_field_rejected_witness :
  reserve_seat None (JDict [("seatId", JStr "A1")]) Sample.A1_u1 =
  (Ok (json_response 400 (message "Seat ID and User ID are required.")),
   Sample.A1_u1)
  /\
  cancel_seat None (JDict [("seatId", JStr "A1")]) Sample.A1_u1 =
  (Ok (json_response 400 (message "Seat ID and User ID are required.")),
   Sample.A1_u1).
Proof.
  apply (@missing_field_rejected Sample.runtime None
           [("seatId", JStr "A1")] Sample.A1_u1).
  right. reflexivity.
Defined.

Lemma empty_field_rejected_witness :
  reserve_seat None (Sample.data EmptyString "u1") Sample.A1_u1 =
  (Ok (json_response 400 (message "Seat ID and User ID are required.")),
   Sample.A1_u1)
  /\
  cancel_seat None (Sample.data EmptyString "u1") Sample.A1_u1 =
  (Ok (json_response 400 (message "Seat ID and User ID are required.")),
   Sample.A1_u1).
Proof.
  apply (@empty_field_rejected Sample.runtime None
           [("seatId", JStr EmptyString); ("userId", JStr "u1")] Sample.A1_u1).
  left. reflexivity.
Defined.

Lemma unknown_route_not_found_witness :
  handle_request None (request "DELETE" "/seats" JNull) Sample.A1_u1 =
  (Ok (json_response 404 (message "Not Found")), Sample.A1_u1).
Proof.
  apply (@unknown_route_not_found Sample.runtime None
           (request "DELETE" "/seats" JNull) Sample.A1_u1);
    intros [H _]; discriminate H.
Defined.

Lemma uncaught_exception_is_500_witness :
  dispatch None (request "POST" "/reserve" (JStr "[]")) Sample.A1_u1 =
  (Raise (AttributeError "list" "get"), Sample.A1_u1)
  /\
  handle_request None (request "POST" "/reserve" (JStr "[]")) Sample.A1_u1 =
  (Ok (json_response 500 (message "An internal error occurred.")),
   printed "Error handling request: " (AttributeError "list" "get") Sample.A1_u1).
Proof.
  split; [reflexivity|].
  apply (@uncaught_exception_is_500 Sample.runtime None
           (request "POST" "/reserve" (JStr "[]")) Sample.A1_u1 Sample.A1_u1).
  reflexivity.
Defined.

Lemma undecodable_body_is_500_witness :
  exists e,
    handle_request None (request "POST" "/cancel" (JStr "{seatId")) Sample.A1_u1 =
    (Ok (json_response 500 (message "An internal error occurred.")),
     printed "Error handling request: " e Sample.A1_u1).
Proof.
  apply (@undecodable_body_is_500 Sample.runtime None
           (request "POST" "/cancel" (JStr "{seatId")) Sample.A1_u1).
  - right. split; reflexivity.
  - right. exists "{seatId", (JSONDecodeError "Expecting value").
    split; reflexivity.
Defined.

Lemma reserve_store_failure_witness :
  reserve_seat (Some ConnectionError) (Sample.data "A1" "u2") Sample.A1_u1 =
  (Ok (json_response 500 (message "An error occurred during reservation.")),
   World [reservation "A1" "u1"]
         [reserve_call (JStr "A1") (JStr "u2")]
         [("Error reserving seat: ", EndpointConnectionError)]).
Proof.
  apply (@reserve_store_failure Sample.runtime ConnectionError
           [("seatId", JStr "A1"); ("userId", JStr "u2")] "A1" "u2" Sample.A1_u1);
    [reflexivity | discriminate | reflexivity | discriminate].
Defined.

Lemma cancel_store_failure_witness :
  cancel_seat (Some (ServiceError "ThrottlingException"))
              (Sample.data "A1" "u1") Sample.A1_u1 =
  (Ok (json_response 500 (message "An error occurred while canceling.")),
   World [reservation "A1" "u1"]
         [cancel_call (JStr "A1") (JStr "u1")]
         [("Error canceling reservation: ", ClientError "ThrottlingException")]).
Proof.
  apply (@cancel_store_failure Sample.runtime (ServiceError "ThrottlingException")
           [("seatId", JStr "A1"); ("userId", JStr "u1")] "A1" "u1" Sample.A1_u1);
    [reflexivity | discriminate | reflexivity | discriminate].
Defined.

Lemma non_string_field_is_500_witness :
  reserve_seat None (JDict [("seatId", JInt 7); ("userId", JStr "u1")]) Sample.empty =
  (Ok (json_response 500 (message "An error occurred during reservation.")),
   World [] [reserve_call (JInt 7) (JStr "u1")]
         [("Error reserving seat: ", ParamValidationError)])
  /\
  cancel_seat None (JDict [("seatId", JInt 7); ("userId", JStr "u1")]) Sample.empty =
  (Ok (json_response 500 (message "An error occurred while canceling.")),
   World [] [cancel_call (JInt 7) (JStr "u1")]
         [("Error canceling reservation: ", ParamValidationError)]).
Proof.
  apply (@non_string_field_is_500 Sample.runtime None
           [("seatId", JInt 7); ("userId", JStr "u1")] Sample.empty);
    reflexivity.
Defined.

Lemma falsy_field_rejected_witness :
  reserve_seat None (JDict [("seatId", JInt 0); ("userId", JStr "u1")]) Sample.A1_u1 =
  (Ok (json_response 400 (message "Seat ID and User ID are required.")),
   Sample.A1_u1)
  /\
  cancel_seat None (JDict [("seatId", JInt 0); ("userId", JStr "u1")]) Sample.A1_u1 =
  (Ok (json_response 400 (message "Seat ID and User ID are required.")),
   Sample.A1_u1).
Proof.
  apply (@falsy_field_rejected Sample.runtime None
           [("seatId", JInt 0); ("userId", JStr "u1")] Sample.A1_u1).
  left. reflexivity.
Defined.

Lemma valid_request_calls_once_witness :
  (exists r w',
     reserve_seat (Some ConnectionError) (Sample.data "A1" "u1") Sample.empty
     = (Ok r, w') /\
     calls w' = [reserve_call (JStr "A1") (JStr "u1")])
  /\
  (exists r w',
     cancel_seat (Some ConnectionError) (Sample.data "A1" "u1") Sample.empty
     = (Ok r, w') /\
     calls w' = [cancel_call (JStr "A1") (JStr "u1")]).
Proof.
  apply (@valid_request_calls_once Sample.runtime (Some ConnectionError)
           [("seatId", JStr "A1"); ("userId", JStr "u1")] Sample.empty);
    reflexivity.
Defined.

Lemma non_object_body_is_500_witness :
  reserve_seat None (JList []) Sample.A1_u1 =
  (Raise (AttributeError "list" "get"), Sample.A1_u1)
  /\
  handle_request None (request "POST" "/cancel" (JStr "[]")) Sample.A1_u1 =
  (Ok (json_response 500 (message "An internal error occurred.")),
   printed "Error handling request: " (AttributeError "list" "get") Sample.A1_u1).
Proof.
  destruct (@non_object_body_is_500 Sample.runtime None (JList []) Sample.A1_u1)
    as (Hr & _ & Hh).
  - discriminate.
  - split; [exact Hr|].
    apply (Hh (request "POST" "/cancel" (JStr "[]")) "[]").
    + right. split; reflexivity.
    + reflexivity.
    + reflexivity.
Defined.

Lemma dispatch_raises_witness :
  dispatch None (request "POST" "/cancel" JNull) Sample.A1_u1
  = (Raise (TypeError "NoneType"), Sample.A1_u1)
  /\
  (route_is (request "POST" "/cancel" JNull) "POST" "/reserve"
   \/ route_is (request "POST" "/cancel" JNull) "POST" "/cancel").
Proof.
  split; [reflexivity|].
  apply (@dispatch_raises Sample.runtime None (request "POST" "/cancel" JNull)
           Sample.A1_u1 Sample.A1_u1 (TypeError "NoneType")).
  reflexivity.
Defined.

Lemma listing_in_scan_order_witness :
  exists seats,
    get_seats None (World [reservation "B2" "u2"; reservation "A1" "u1"] [] []) =
    (Ok (json_response 200 (JDict seats)),
     World [reservation "B2" "u2"; reservation "A1" "u1"] [Call_scan] [])
    /\
    map Some (map fst seats) = [Some "B2"; Some "A1"] /\
    (2 <= 2 -> map Some (map fst seats) = [Some "B2"; Some "A1"]).
Proof.
  apply (@listing_in_scan_order Sample.runtime
           (World [reservation "B2" "u2"; reservation "A1" "u1"] [] [])).
  - split; [repeat constructor|].
    constructor; [intros [H|[]]; discriminate H|].
    constructor; [intros [] | constructor].
  - repeat constructor.
Defined.

Lemma second_reserve_refused_witness :
  exists w1 w2,
    reserve_seat None (Sample.data "A1" "u1") Sample.empty =
    (Ok (json_response 200 (message "Seat A1 reserved successfully.")), w1)
    /\
    reserve_seat None (Sample.data "A1" "u2") w1 =
    (Ok (json_response 409 (message "Seat A1 is already reserved.")), w2)
    /\
    table w2 = table w1 /\ owned_by (table w2) "A1" "u1".
Proof.
  apply (@second_reserve_refused Sample.runtime
           [("seatId", JStr "A1"); ("userId", JStr "u1")]
           [("seatId", JStr "A1"); ("userId", JStr "u2")]
           "A1" "u1" "u2" Sample.empty);
    first [reflexivity | discriminate].
Defined.

Lemma owned_A1_u1 : owned_by (table Sample.A1_u1) "A1" "u1".
Proof. exists (reservation "A1" "u1"). split; reflexivity. Defined.

Lemma cancel_by_other_then_owner_witness :
  exists w1 w2,
    cancel_seat None (Sample.data "A1" "u2") Sample.A1_u1 =
    (Ok (json_response 400
           (message "You cannot cancel this reservation as it does not belong to you.")),
     w1)
    /\
    table w1 = table Sample.A1_u1
    /\
    cancel_seat None (Sample.data "A1" "u1") w1 =
    (Ok (json_response 200 (message "Reservation for seat A1 canceled.")), w2)
    /\
    lookup_item (table w2) "A1" = None.
Proof.
  apply (@cancel_by_other_then_owner Sample.runtime
           [("seatId", JStr "A1"); ("userId", JStr "u2")]
           [("seatId", JStr "A1"); ("userId", JStr "u1")]
           "A1" "u1" "u2" Sample.A1_u1);
    first [reflexivity | discriminate | exact owned_A1_u1].
Defined.

Lemma second_cancel_refused_witness :
  exists w1 w2,
    cancel_seat None (Sample.data "A1" "u1") Sample.A1_u1 =
    (Ok (json_response 200 (message "Reservation for seat A1 canceled.")), w1)
    /\
    cancel_seat None (Sample.data "A1" "u1") w1 =
    (Ok (json_response 400
           (message "You cannot cancel this reservation as it does not belong to you.")),
     w2)
    /\
    table w2 = table w1.
Proof.
  apply (@second_cancel_refused Sample.runtime
           [("seatId", JStr "A1"); ("userId", JStr "u1")] "A1" "u1" Sample.A1_u1);
    first [reflexivity | discriminate | exact owned_A1_u1].
Defined.

Lemma reserve_after_cancel_witness :
  exists w1 w2,
    cancel_seat None (Sample.data "A1" "u1") Sample.A1_u1 =
    (Ok (json_response 200 (message "Reservation for seat A1 canceled.")), w1)
    /\
    reserve_seat None (Sample.data "A1" "u2") w1 =
    (Ok (json_response 200 (message "Seat A1 reserved successfully.")), w2)
    /\
    owned_by (table w2) "A1" "u2".
Proof.
  apply (@reserve_after_cancel Sample.runtime
           [("seatId", JStr "A1"); ("userId", JStr "u1")]
           [("seatId", JStr "A1"); ("userId", JStr "u2")]
           "A1" "u1" "u2" Sample.A1_u1);
    first [reflexivity | discriminate | exact owned_A1_u1].
Defined.

Lemma reachable_A1_u1 :
  reachable (World [reservation "A1" "u1"]
                   [reserve_call (JStr "A1") (JStr "u1")] []).
Proof.
  apply (@reachable_step Sample.runtime (World [] [] []) _ None
           (request "POST" "/reserve" (JStr (Sample.document "A1" "u1")))
           (Ok (json_response 200 (message "Seat A1 reserved successfully.")))).
  - apply reachable_start.
  - reflexivity.
Defined.

Lemma reachable_records_witness :
  table_ok [reservation "A1" "u1"] /\ Forall written [reservation "A1" "u1"].
Proof.
  exact (@reachable_records Sample.runtime _ reachable_A1_u1).
Defined.

Lemma reachable_listing_witness :
  exists seats,
    get_seats None
      (World [reservation "A1" "u1"] [reserve_call (JStr "A1") (JStr "u1")] []) =
    (Ok (json_response 200 (JDict seats)),
     World [reservation "A1" "u1"]
           [reserve_call (JStr "A1") (JStr "u1"); Call_scan] [])
    /\
    forall k v,
      dict_lookup seats k = Some v ->
      exists user, owned_by [reservation "A1" "u1"] k user /\ v = seat_entry user.
Proof.
  destruct (@reachable_listing Sample.runtime _ reachable_A1_u1)
    as (seats & Hrun & _ & Hheld & _).
  exists seats. split; [exact Hrun | exact Hheld].
Defined.

Lemma get_seats_of_one_answer_witness :
  (exists seats,
     get_seats None Sample.A1_u1 =
     (Ok (json_response 200 (JDict seats)), called Call_scan Sample.A1_u1)
     /\ dict_lookup seats "A1" = Some (seat_entry "u1"))
  /\
  (exists e,
     get_seats None Sample.malformed_B2 =
     (Ok (json_response 500 (message "Failed to retrieve seats.")),
      printed "Error getting seats: " e (called Call_scan Sample.malformed_B2))).
Proof.
  split.
  - destruct (proj1 (@get_seats_of_one_answer Sample.runtime Sample.A1_u1))
      as (seats & Hrun & _ & Hlook).
    + split; [repeat constructor|].
      constructor; [intros [] | constructor].
    + repeat constructor.
    + exists seats. split; [exact Hrun|].
      apply Hlook. exists "u1". split; [|reflexivity].
      exists (reservation "A1" "u1"). split; reflexivity.
  - apply (proj2 (proj2 (@get_seats_of_one_answer Sample.runtime
                           Sample.malformed_B2))).
    left. reflexivity.
Defined.

End Examples.
